(** * k6 load-test report generator: a shallow embedding of
      [report-generator.js] and the properties of its metric aggregation
      and report rendering.

    Conventions of the embedding.

    - A log line is taken after [line.trim()] and [JSON.parse]: it is
      blank, rejected by the parser, or a parsed JSON value ([line]).
    - JSON numbers and the arithmetic on them are exact rationals ([Q])
      in place of IEEE doubles; numbers are printed as below 10^21.
    - A JavaScript object used as a map is an association list in creation
      order ([obj]); [own_keys] gives the enumeration order of
      [Object.keys] (array indices ascending, then the other keys in
      creation order).  Keys are assumed not to name a property inherited
      from [Object.prototype] (such as [constructor]).
    - Two platform functions are parameters of the development:
      [ToString] (property-key coercion of a JSON value that is not a
      string) and [Date_getTime] ([new Date(v).getTime()]).
    - A sample value that is not a number leaves the model
      ([NonNumeric]): the comparator [(a, b) => a - b] orders numbers
      only.
    - The rendered document is the record of the holes of the template
      literal of [generateHTML], in template order; the constant text
      between the holes is left out, and so is the text of
      [toLocaleString] and [JSON.stringify], whose arguments are kept. *)

From Stdlib Require Import List String Ascii ZArith QArith Qround Bool Lia.
From Stdlib Require Import DecimalString DecimalPos DecimalZ Sorted Permutation Lqa.
Import ListNotations.
Open Scope string_scope.
Open Scope list_scope.

Set Implicit Arguments.
Set Warnings "-register-all".

(** ** JavaScript values *)

Inductive json : Type :=
| JNull
| JBool (b : bool)
| JNum (q : Q)
| JStr (s : string)
| JArr (items : list json)
| JObj (fields : list (string * json)).

(** A JavaScript value read out of parsed JSON: [None] is [undefined]. *)
Definition jsval : Type := option json.

(** A JavaScript number that is either finite or [NaN]. *)
Inductive num : Type :=
| Fin (q : Q)
| NaN.

(** Result of an expression that may raise a [TypeError]. *)
Inductive exc (A : Type) : Type :=
| Ok (a : A)
| TypeError.
Arguments TypeError {A}.

Fixpoint assoc {V : Type} (k : string) (l : list (string * V)) : option V :=
  match l with
  | [] => None
  | (k', v) :: l' => if String.eqb k k' then Some v else assoc k l'
  end.

(** [v.f] for the field names the program reads ([type], [data], [time],
    [metric], [tags], [status], [value], [name], [contains]): a
    [TypeError] on [undefined] and [null], the own property of an object,
    [undefined] on every other value. *)
Definition prop (v : jsval) (f : string) : exc jsval :=
  match v with
  | None => TypeError
  | Some JNull => TypeError
  | Some (JObj fields) => Ok (assoc f fields)
  | Some _ => Ok None
  end.

(** [v?.f] *)
Definition opt_prop (v : jsval) (f : string) : jsval :=
  match prop v f with
  | Ok r => r
  | TypeError => None
  end.

(** ToBoolean *)
Definition truthy (v : jsval) : bool :=
  match v with
  | None => false
  | Some JNull => false
  | Some (JBool b) => b
  | Some (JNum q) => negb (Qeq_bool q 0)
  | Some (JStr s) => negb (String.eqb s "")
  | Some (JArr _) => true
  | Some (JObj _) => true
  end.

(** [v === 'lit'] for a string literal *)
Definition is_str (v : jsval) (lit : string) : bool :=
  match v with
  | Some (JStr s) => String.eqb s lit
  | _ => false
  end.

(** ** Objects used as maps *)

Module Obj.

Definition obj (V : Type) : Type := list (string * V).

Definition get {V : Type} (k : string) (o : obj V) : option V := assoc k o.

(** [o[k] = v]: an existing property keeps its place, a new one goes last. *)
Fixpoint set {V : Type} (k : string) (v : V) (o : obj V) : obj V :=
  match o with
  | [] => [(k, v)]
  | (k', v') :: o' =>
      if String.eqb k k' then (k', v) :: o' else (k', v') :: set k v o'
  end.

Definition digit (c : ascii) : option N :=
  let n := N_of_ascii c in
  if (48 <=? n)%N && (n <=? 57)%N then Some (n - 48)%N else None.

Fixpoint digits_value (s : string) (acc : N) : option N :=
  match s with
  | EmptyString => Some acc
  | String c s' =>
      match digit c with
      | Some d => digits_value s' (acc * 10 + d)%N
      | None => None
      end
  end.

(** An array index: the canonical decimal string of an integer in
    [0, 2^32 - 2]. *)
Definition array_index (s : string) : option N :=
  match s with
  | EmptyString => None
  | String c rest =>
      if Ascii.eqb c "0"
      then match rest with EmptyString => Some 0%N | _ => None end
      else match digits_value s 0 with
           | Some n => if (n <? 4294967295)%N then Some n else None
           | None => None
           end
  end.

Fixpoint insert_index {V : Type} (i : N) (e : string * V)
  (l : list (N * (string * V))) : list (N * (string * V)) :=
  match l with
  | [] => [(i, e)]
  | (j, e') :: l' =>
      if (i <? j)%N then (i, e) :: (j, e') :: l'
      else (j, e') :: insert_index i e l'
  end.

Fixpoint indexed {V : Type} (o : obj V) : list (N * (string * V)) :=
  match o with
  | [] => []
  | (k, v) :: o' =>
      match array_index k with
      | Some i => insert_index i (k, v) (indexed o')
      | None => indexed o'
      end
  end.

Definition named {V : Type} (o : obj V) : list (string * V) :=
  filter (fun e => match array_index (fst e) with
                   | Some _ => false
                   | None => true
                   end) o.

(** [Object.entries(o)] *)
Definition entries {V : Type} (o : obj V) : list (string * V) :=
  map snd (indexed o) ++ named o.

(** [Object.keys(o)] *)
Definition own_keys {V : Type} (o : obj V) : list string :=
  map fst (entries o).

(** [Object.values(o)] *)
Definition values {V : Type} (o : obj V) : list V :=
  map snd (entries o).

End Obj.

Import Obj.

(** ** Number formatting *)

Definition Z_to_string (z : Z) : string :=
  NilZero.string_of_int (Z.to_int z).

(** [x.toFixed(2)]: the integer [n] for which [n / 100] is nearest to
    [|x|], the larger one on a tie, printed with two decimals. *)
Definition toFixed2 (x : Q) : string :=
  let neg := negb (Qle_bool 0 x) in
  let a := if neg then Qopp x else x in
  let n := Qfloor (a * 100 + (1 # 2)) in
  let cents := Z_to_string (n mod 100) in
  (if neg then "-" else "")
    ++ Z_to_string (n / 100) ++ "."
    ++ (if (n mod 100 <? 10)%Z then "0" ++ cents else cents).

(** [parseFloat(x.toFixed(2)) + ''] for [x > 0]: at most two decimals,
    without trailing zeros. *)
Definition shortest2 (x : Q) : string :=
  let n := Qfloor (x * 100 + (1 # 2)) in
  let whole := Z_to_string (n / 100) in
  let r := (n mod 100)%Z in
  if (r =? 0)%Z then whole
  else if (r mod 10 =? 0)%Z then whole ++ "." ++ Z_to_string (r / 10)
  else whole ++ "." ++ (if (r <? 10)%Z then "0" else "") ++ Z_to_string r.

(** [Math.floor(Math.log2(q))] for [q > 0] *)
Definition floor_log2 (q : Q) : Z :=
  if Qle_bool 1 q then Z.log2 (Qfloor q)
  else (- Z.log2_up (Qceiling (Qinv q)))%Z.

Definition sizes_at (i : Z) : string :=
  if (i =? 0)%Z then "Bytes"
  else if (i =? 1)%Z then "KB"
  else if (i =? 2)%Z then "MB"
  else if (i =? 3)%Z then "GB"
  else "undefined".

(** [formatBytes(bytes)], lines 3-9.  [undefined], [NaN] and a negative
    argument all give [NaN] for [Math.log], hence the text
    ["NaN undefined"]. *)
Definition formatBytes (bytes : num) : string :=
  match bytes with
  | NaN => "NaN undefined"
  | Fin q =>
      if Qeq_bool q 0 then "0 Bytes"
      else if Qle_bool q 0 then "NaN undefined"
      else
        let i := (floor_log2 q / 10)%Z in
        let scaled :=
          if (0 <=? i)%Z then q / inject_Z (1024 ^ i)
          else q * inject_Z (1024 ^ (- i)) in
        shortest2 scaled ++ " " ++ sizes_at i
  end.

(** [formatDuration(ms)], lines 11-21.  Every comparison with [NaN] (or
    [undefined]) is false, so the last branch prints ["NaN m"]. *)
Definition formatDuration (ms : num) : string :=
  match ms with
  | NaN => "NaN m"
  | Fin q =>
      if negb (Qle_bool 1 q) then toFixed2 (q * 1000) ++ " μs"
      else if negb (Qle_bool 1000 q) then toFixed2 q ++ " ms"
      else if negb (Qle_bool 60000 q) then toFixed2 (q / 1000) ++ " s"
      else toFixed2 (q / 60000) ++ " m"
  end.

(** [getMetricUnit(metricName)], lines 23-41 *)
Definition metricUnits : obj string :=
  [ ("http_req_duration", "time");
    ("http_req_waiting", "time");
    ("http_req_connecting", "time");
    ("http_req_tls_handshaking", "time");
    ("http_req_sending", "time");
    ("http_req_receiving", "time");
    ("http_reqs", "count");
    ("data_sent", "data");
    ("data_received", "data");
    ("iteration_duration", "time");
    ("iterations", "count");
    ("vus", "count");
    ("vus_max", "count");
    ("checks", "count") ].

Definition getMetricUnit (metricName : string) : string :=
  match Obj.get metricName metricUnits with
  | Some u => u
  | None => ""
  end.

Example formatDuration_samples :
  map formatDuration [Fin 0; Fin (1 # 2); Fin 12; Fin (12345 # 10); Fin 90000; NaN]
  = ["0.00 μs"; "500.00 μs"; "12.00 ms"; "1.23 s"; "1.50 m"; "NaN m"].
Proof. vm_compute. reflexivity. Qed.

Example formatBytes_samples :
  map formatBytes [Fin 0; Fin 512; Fin 1536; Fin 1048576; Fin (1 # 3); NaN]
  = ["0 Bytes"; "512 Bytes"; "1.5 KB"; "1 MB"; "341.33 undefined"; "NaN undefined"].
Proof. vm_compute. reflexivity. Qed.

Example own_keys_order :
  own_keys [("500", 1%nat); ("abc", 2%nat); ("200", 3%nat); ("07", 4%nat)]
  = ["200"; "500"; "abc"; "07"].
Proof. vm_compute. reflexivity. Qed.

(** ** Aggregation state of [processK6Output] *)

(** Statistics of one metric, lines 156-167. *)
Record summary : Type := {
  s_min : Q;
  s_max : Q;
  s_avg : Q;
  s_med : Q;
  s_p90 : Q;
  s_p95 : Q;
  s_p99 : Q;
  s_count : nat
}.

(** The [stats] property of a metric: the empty object [{}] it is created
    with, or the statistics assigned after the pass. *)
Inductive stats : Type :=
| NoStats
| Stats (s : summary).

(** A metric definition, lines 122-128. *)
Record metric : Type := {
  m_type : jsval;
  m_contains : jsval;
  m_values : list jsval;
  m_stats : stats;
  m_unit : string
}.

(** [{timestamp, value}] *)
Record point : Type := {
  p_timestamp : num;
  p_value : jsval
}.

(** [{timestamp, value, status}] *)
Record request : Type := {
  r_timestamp : num;
  r_value : jsval;
  r_status : jsval
}.

(** The time value of a [Date]: [None] is an invalid date. *)
Definition date : Type := option Z.

(** The variables of lines 58-70, with the number of [console.error]
    calls made so far. *)
Record pass_state : Type := {
  metrics : obj metric;
  samples : obj (list jsval);
  timestamps : list num;
  vus : list jsval;
  requests : list request;
  dataTransfer : list point;
  statusCodes : obj nat;
  successfulResponses : list point;
  testStartTime : option date;
  testEndTime : option date;
  console_errors : nat
}.

Definition initial_state : pass_state :=
  {| metrics := []; samples := []; timestamps := []; vus := [];
     requests := []; dataTransfer := []; statusCodes := [];
     successfulResponses := []; testStartTime := None; testEndTime := None;
     console_errors := 0 |}.

Definition with_metrics (f : obj metric -> obj metric) (st : pass_state) :=
  {| metrics := f (metrics st); samples := samples st;
     timestamps := timestamps st; vus := vus st; requests := requests st;
     dataTransfer := dataTransfer st; statusCodes := statusCodes st;
     successfulResponses := successfulResponses st;
     testStartTime := testStartTime st; testEndTime := testEndTime st;
     console_errors := console_errors st |}.

Definition with_samples (f : obj (list jsval) -> obj (list jsval))
  (st : pass_state) :=
  {| metrics := metrics st; samples := f (samples st);
     timestamps := timestamps st; vus := vus st; requests := requests st;
     dataTransfer := dataTransfer st; statusCodes := statusCodes st;
     successfulResponses := successfulResponses st;
     testStartTime := testStartTime st; testEndTime := testEndTime st;
     console_errors := console_errors st |}.

Definition with_vus (t : num) (v : jsval) (st : pass_state) :=
  {| metrics := metrics st; samples := samples st;
     timestamps := timestamps st ++ [t]; vus := vus st ++ [v];
     requests := requests st;
     dataTransfer := dataTransfer st; statusCodes := statusCodes st;
     successfulResponses := successfulResponses st;
     testStartTime := testStartTime st; testEndTime := testEndTime st;
     console_errors := console_errors st |}.

Definition with_request (r : request) (st : pass_state) :=
  {| metrics := metrics st; samples := samples st;
     timestamps := timestamps st; vus := vus st;
     requests := requests st ++ [r];
     dataTransfer := dataTransfer st; statusCodes := statusCodes st;
     successfulResponses := successfulResponses st;
     testStartTime := testStartTime st; testEndTime := testEndTime st;
     console_errors := console_errors st |}.

Definition with_dataTransfer (p : point) (st : pass_state) :=
  {| metrics := metrics st; samples := samples st;
     timestamps := timestamps st; vus := vus st; requests := requests st;
     dataTransfer := dataTransfer st ++ [p]; statusCodes := statusCodes st;
     successfulResponses := successfulResponses st;
     testStartTime := testStartTime st; testEndTime := testEndTime st;
     console_errors := console_errors st |}.

Definition with_statusCodes (f : obj nat -> obj nat) (st : pass_state) :=
  {| metrics := metrics st; samples := samples st;
     timestamps := timestamps st; vus := vus st; requests := requests st;
     dataTransfer := dataTransfer st; statusCodes := f (statusCodes st);
     successfulResponses := successfulResponses st;
     testStartTime := testStartTime st; testEndTime := testEndTime st;
     console_errors := console_errors st |}.

Definition with_successfulResponse (p : point) (st : pass_state) :=
  {| metrics := metrics st; samples := samples st;
     timestamps := timestamps st; vus := vus st; requests := requests st;
     dataTransfer := dataTransfer st; statusCodes := statusCodes st;
     successfulResponses := successfulResponses st ++ [p];
     testStartTime := testStartTime st; testEndTime := testEndTime st;
     console_errors := console_errors st |}.

Definition with_testStartTime (d : date) (st : pass_state) :=
  {| metrics := metrics st; samples := samples st;
     timestamps := timestamps st; vus := vus st; requests := requests st;
     dataTransfer := dataTransfer st; statusCodes := statusCodes st;
     successfulResponses := successfulResponses st;
     testStartTime := Some d; testEndTime := testEndTime st;
     console_errors := console_errors st |}.

Definition with_testEndTime (d : date) (st : pass_state) :=
  {| metrics := metrics st; samples := samples st;
     timestamps := timestamps st; vus := vus st; requests := requests st;
     dataTransfer := dataTransfer st; statusCodes := statusCodes st;
     successfulResponses := successfulResponses st;
     testStartTime := testStartTime st; testEndTime := Some d;
     console_errors := console_errors st |}.

(** [console.error('Error processing line:', e)], line 143 *)
Definition console_error (st : pass_state) :=
  {| metrics := metrics st; samples := samples st;
     timestamps := timestamps st; vus := vus st; requests := requests st;
     dataTransfer := dataTransfer st; statusCodes := statusCodes st;
     successfulResponses := successfulResponses st;
     testStartTime := testStartTime st; testEndTime := testEndTime st;
     console_errors := S (console_errors st) |}.

(** ** The body of the [forEach] callback as a state and completion monad *)

(** How a statement of the callback completes: normally, by the [return]
    of line 135, or by throwing. *)
Inductive completion (A : Type) : Type :=
| Normal (a : A)
| Return
| Throw.
Arguments Return {A}.
Arguments Throw {A}.

Definition M (A : Type) : Type := pass_state -> pass_state * completion A.

Definition ret {A : Type} (a : A) : M A := fun st => (st, Normal a).

Definition bind {A B : Type} (m : M A) (k : A -> M B) : M B :=
  fun st =>
    match m st with
    | (st', Normal a) => k a st'
    | (st', Return) => (st', Return)
    | (st', Throw) => (st', Throw)
    end.

Definition eval {A : Type} (e : exc A) : M A :=
  fun st => (st, match e with Ok a => Normal a | TypeError => Throw end).

Definition modify (f : pass_state -> pass_state) : M unit :=
  fun st => (f st, Normal tt).

Definition read {A : Type} (f : pass_state -> A) : M A :=
  fun st => (st, Normal (f st)).

Definition return_ : M unit := fun st => (st, Return).

Definition when (b : bool) (m : M unit) : M unit :=
  if b then m else ret tt.

Declare Scope js_scope.
Delimit Scope js_scope with js.
Notation "x <- m ;; k" := (bind m (fun x => k))
  (at level 61, m at next level, right associativity) : js_scope.
Notation "m ;; k" := (bind m (fun _ => k))
  (at level 61, right associativity) : js_scope.
Open Scope js_scope.

(** A log line after [trim] and [JSON.parse]. *)
Inductive line : Type :=
| Blank
| Garbage
| Parsed (data : json).

(** [timestamp < testStartTime] on dates: false when either is invalid. *)
Definition date_ltb (a b : date) : bool :=
  match a, b with
  | Some x, Some y => (x <? y)%Z
  | _, _ => false
  end.

(** [timestamp.getTime() / 1000] *)
Definition seconds_of (d : date) : num :=
  match d with
  | Some ms => Fin (inject_Z ms / 1000)
  | None => NaN
  end.

(** [if (!samples[k]) samples[k] = []; samples[k].push(v)], lines 137-140 *)
Definition push_sample (k : string) (v : jsval) (s : obj (list jsval))
  : obj (list jsval) :=
  Obj.set k (match Obj.get k s with
             | Some vs => vs
             | None => []
             end ++ [v]) s.

(** [statusCodes[k] = (statusCodes[k] || 0) + 1], line 88 *)
Definition count_status (k : string) (codes : obj nat) : obj nat :=
  Obj.set k (match Obj.get k codes with
             | Some n => n
             | None => 0%nat
             end + 1)%nat codes.

(** ** Concrete platform functions for the examples *)

(** [ToString] of a JSON value; exact when the numbers in it are integers. *)
Fixpoint ToString_integral (j : json) : string :=
  match j with
  | JNull => "null"
  | JBool b => if b then "true" else "false"
  | JNum q => Z_to_string (Qfloor q)
  | JStr s => s
  | JArr items =>
      String.concat ","
        (map (fun i => match i with
                       | JNull => ""
                       | _ => ToString_integral i
                       end) items)
  | JObj _ => "[object Object]"
  end.

(** [new Date(v).getTime()] for a number [v] of milliseconds: truncated
    towards zero, invalid beyond 8.64e15.  Every other value counts as an
    unparseable date; the examples use numeric times only. *)
Definition Date_of_number (j : json) : date :=
  match j with
  | JNum q =>
      let ms := if Qle_bool 0 q then Qfloor q else Qceiling q in
      if (Z.abs ms <=? 8640000000000000)%Z then Some ms else None
  | _ => None
  end.

(** Log lines as k6 writes them, for the examples. *)

(** [{"type":"Metric","data":{"name":..,"type":..,"contains":..},"metric":..}] *)
Definition metric_json (name type contains : string) : json :=
  JObj [("type", JStr "Metric");
        ("data", JObj [("name", JStr name);
                       ("type", JStr type);
                       ("contains", JStr contains)]);
        ("metric", JStr name)].

Definition tags_of (tags : list (string * string)) : json :=
  JObj (map (fun t => (fst t, JStr (snd t))) tags).

(** The [data] object of a point, with the time in milliseconds. *)
Definition point_data (time value : Q) (tags : list (string * string))
  : json :=
  JObj [("time", JNum time); ("value", JNum value); ("tags", tags_of tags)].

(** [{"type":"Point","data":{"time":..,"value":..,"tags":{..}},"metric":..}] *)
Definition point_json (name : string) (time value : Q)
  (tags : list (string * string)) : json :=
  JObj [("type", JStr "Point");
        ("data", point_data time value tags);
        ("metric", JStr name)].


Definition metric_line (name type contains : string) : line :=
  Parsed (metric_json name type contains).

Definition point_line (name : string) (time value : Q)
  (tags : list (string * string)) : line :=
  Parsed (point_json name time value tags).


Section Platform.

(** Property-key coercion of a JSON value that is not a string. *)
Variable ToString : json -> string.

(** [new Date(v).getTime()], [None] for an invalid date. *)
Variable Date_getTime : json -> date.

(** The key under which [o[v]] reads and writes. *)
Definition key_of (v : jsval) : string :=
  match v with
  | None => "undefined"
  | Some (JStr s) => s
  | Some j => ToString j
  end.

(** [new Date(v)] *)
Definition new_Date (v : jsval) : date :=
  match v with
  | None => None
  | Some j => Date_getTime j
  end.

(** [x && x.status] for [x = data.data.tags] *)
Definition tags_and_status (tags : jsval) : M jsval :=
  if truthy tags then eval (prop tags "status") else ret tags.

(** Lines 82-83. *)
Definition track_time_range (timestamp : date) : M unit :=
  start <- read testStartTime ;;
  when (match start with
        | None => true
        | Some s => date_ltb timestamp s
        end) (modify (with_testStartTime timestamp)) ;;
  stop <- read testEndTime ;;
  when (match stop with
        | None => true
        | Some e => date_ltb e timestamp
        end) (modify (with_testEndTime timestamp)).

(** Lines 85-89: track status codes. *)
Definition track_status_codes (data d : jsval) : M unit :=
  metricName <- eval (prop data "metric") ;;
  if is_str metricName "http_reqs" then
    tags <- eval (prop d "tags") ;;
    status <- tags_and_status tags ;;
    when (truthy status)
      (modify (with_statusCodes (count_status (key_of status))))
  else ret tt.

(** Lines 91-117: collect timeseries data. *)
Definition collect_series (data d : jsval) (timeInSeconds : num) : M unit :=
  metricName <- eval (prop data "metric") ;;
  if is_str metricName "vus" then
    value <- eval (prop d "value") ;;
    modify (with_vus timeInSeconds value)
  else if is_str metricName "http_req_duration" then
    tags <- eval (prop d "tags") ;;
    status <- tags_and_status tags ;;
    when (is_str status "200")
      (value <- eval (prop d "value") ;;
       modify (with_successfulResponse
                 {| p_timestamp := timeInSeconds; p_value := value |}))
  else if is_str metricName "http_reqs" then
    value <- eval (prop d "value") ;;
    tags <- eval (prop d "tags") ;;
    modify (with_request
              {| r_timestamp := timeInSeconds; r_value := value;
                 r_status := opt_prop tags "status" |})
  else if is_str metricName "data_received" then
    tags <- eval (prop d "tags") ;;
    status <- tags_and_status tags ;;
    when (is_str status "200")
      (value <- eval (prop d "value") ;;
       modify (with_dataTransfer
                 {| p_timestamp := timeInSeconds; p_value := value |}))
  else ret tt.

(** Lines 78-118, inside the [if]. *)
Definition collect_timeseries (data : jsval) : M unit :=
  d <- eval (prop data "data") ;;
  time <- eval (prop d "time") ;;
  let timestamp := new_Date time in
  let timeInSeconds := seconds_of timestamp in
  track_time_range timestamp ;;
  track_status_codes data d ;;
  collect_series data d timeInSeconds.

(** Lines 121-129. *)
Definition define_metric (data : jsval) : M unit :=
  d <- eval (prop data "data") ;;
  name <- eval (prop d "name") ;;
  type <- eval (prop d "type") ;;
  contains <- eval (prop d "contains") ;;
  modify (with_metrics (Obj.set (key_of name)
    {| m_type := type; m_contains := contains; m_values := [];
       m_stats := NoStats; m_unit := getMetricUnit (key_of name) |})).

(** Lines 132-141. *)
Definition collect_sample (data : jsval) : M unit :=
  metricName <- eval (prop data "metric") ;;
  d <- eval (prop data "data") ;;
  skip <- (if is_str metricName "http_req_duration" then
             tags <- eval (prop d "tags") ;;
             if negb (truthy tags) then ret true
             else status <- eval (prop tags "status") ;;
                  ret (negb (is_str status "200"))
           else ret false) ;;
  when skip return_ ;;
  value <- eval (prop d "value") ;;
  modify (with_samples (push_sample (key_of metricName) value)).

(** The [try] block, lines 76-141, after [JSON.parse]. *)
Definition try_block (data : jsval) : M unit :=
  type <- eval (prop data "type") ;;
  tracked <- (if is_str type "Point" then
                d <- eval (prop data "data") ;;
                time <- eval (prop d "time") ;;
                ret (truthy time)
              else ret false) ;;
  when tracked (collect_timeseries data) ;;
  when (is_str type "Metric") (define_metric data) ;;
  when (is_str type "Point") (collect_sample data).

(** One call of the [forEach] callback, lines 72-145. *)
Definition process_line (st : pass_state) (l : line) : pass_state :=
  match l with
  | Blank => st
  | Garbage => console_error st
  | Parsed data =>
      match try_block (Some data) st with
      | (st', Throw) => console_error st'
      | (st', _) => st'
      end
  end.

Definition pass (lines : list line) : pass_state :=
  fold_left process_line lines initial_state.

(** ** Statistics, lines 151-169 *)

(** What the program may do with a log. [NonNumeric]: some accumulated
    sample value is not a JSON number; the order in which
    [(a, b) => a - b] leaves such values depends on the engine and is
    left outside the model. *)
Inductive outcome (A : Type) : Type :=
| Returned (a : A)
| Thrown
| NonNumeric.
Arguments Thrown {A}.
Arguments NonNumeric {A}.

Definition as_number (v : jsval) : option Q :=
  match v with
  | Some (JNum q) => Some q
  | _ => None
  end.

Fixpoint numbers_of (vs : list jsval) : option (list Q) :=
  match vs with
  | [] => Some []
  | v :: vs' =>
      match as_number v, numbers_of vs' with
      | Some q, Some qs => Some (q :: qs)
      | _, _ => None
      end
  end.

(** [values.sort((a, b) => a - b)] on numbers: the stable ascending sort. *)
Fixpoint insert_sorted (x : Q) (l : list Q) : list Q :=
  match l with
  | [] => [x]
  | y :: l' => if Qle_bool x y then x :: y :: l' else y :: insert_sorted x l'
  end.

Fixpoint sort (l : list Q) : list Q :=
  match l with
  | [] => []
  | x :: l' => insert_sorted x (sort l')
  end.

(** [values[i]] for an index that lines 155-166 keep in range (see
    [percentile_indices_in_range]). *)
Definition at_index (values : list Q) (i : nat) : Q := nth i values 0.

(** The object literal of lines 156-167 over the sorted [values].
    [Math.floor(len * 0.9)], [Math.floor(len * 0.95)] and
    [Math.floor(len * 0.99)] are the integer quotients [len * 9 / 10],
    [len * 95 / 100] and [len * 99 / 100]: the double nearest to [0.9]
    lies above it, and those nearest to [0.95] and [0.99] lie below
    with a relative error under 2^-54, so for every length an array can
    have the rounded product has the floor of the exact one. *)
Definition statistics (values : list Q) : summary :=
  let len := List.length values in
  {| s_min := at_index values 0;
     s_max := at_index values (len - 1);
     s_avg := fold_left Qplus values 0 / inject_Z (Z.of_nat len);
     s_med := if Nat.eqb (len mod 2) 0
              then (at_index values (len / 2 - 1) + at_index values (len / 2)) / 2
              else at_index values (len / 2);
     s_p90 := at_index values (len * 9 / 10);
     s_p95 := at_index values (len * 95 / 100);
     s_p99 := at_index values (len * 99 / 100);
     s_count := len |}.

Definition set_stats (s : stats) (m : metric) : metric :=
  {| m_type := m_type m; m_contains := m_contains m;
     m_values := m_values m; m_stats := s; m_unit := m_unit m |}.

(** The loop over [Object.keys(samples)]. [numeric] records whether every
    list seen so far held numbers only. *)
Fixpoint compute_statistics (names : list string)
  (smp : obj (list jsval)) (ms : obj metric) (numeric : bool)
  : outcome (obj metric) :=
  match names with
  | [] => if numeric then Returned ms else NonNumeric
  | metricName :: rest =>
      let values := match Obj.get metricName smp with
                    | Some vs => vs
                    | None => []
                    end in
      if Nat.ltb 0 (List.length values) then
        match Obj.get metricName ms with
        | None => Thrown            (* metrics[metricName] is undefined *)
        | Some m =>
            match numbers_of values with
            | Some qs =>
                compute_statistics rest smp
                  (Obj.set metricName
                     (set_stats (Stats (statistics (sort qs))) m) ms)
                  numeric
            | None => compute_statistics rest smp ms false
            end
        end
      else compute_statistics rest smp ms numeric
  end.

(** ** Response time distribution, lines 172-181 *)

(** [Math.floor(point.value / 100) * 100] *)
Definition bucket_of (q : Q) : Z := (Qfloor (q / 100) * 100)%Z.

(** A point of [successfulResponses] whose value is a number. *)
Record numeric_point : Type := {
  np_timestamp : num;
  np_value : Q
}.

Fixpoint numeric_points (ps : list point) : option (list numeric_point) :=
  match ps with
  | [] => Some []
  | p :: ps' =>
      match as_number (p_value p), numeric_points ps' with
      | Some q, Some qs =>
          Some ({| np_timestamp := p_timestamp p; np_value := q |} :: qs)
      | _, _ => None
      end
  end.

(** [responseTimeBuckets]: under the key of a bucket, the bucket and its
    count. *)
Fixpoint fill_buckets (ps : list numeric_point) (b : obj (Z * nat))
  : obj (Z * nat) :=
  match ps with
  | [] => b
  | p :: ps' =>
      let bucket := bucket_of (np_value p) in
      let key := Z_to_string bucket in
      fill_buckets ps'
        (Obj.set key
           (bucket, (match Obj.get key b with
                     | Some (_, n) => n
                     | None => 0
                     end + 1)%nat) b)
  end.

Record distribution : Type := {
  buckets : list Z;
  counts : list nat
}.

Record timeseries : Type := {
  ts_timestamps : list num;
  ts_vus : list jsval;
  ts_responseTime : list numeric_point;
  ts_requests : list request;
  ts_dataTransfer : list point;
  ts_statusCodes : obj nat;
  ts_responseTimeDistribution : distribution
}.

(** The value returned at lines 183-187. *)
Record snapshot : Type := {
  sn_metrics : obj metric;
  sn_testDuration : num;
  sn_timeseriesData : timeseries
}.

(** [testEndTime - testStartTime]: [null] counts as 0, an invalid date
    gives [NaN]. *)
Definition date_diff (stop start : option date) : num :=
  let ms (d : option date) : option Z :=
    match d with
    | None => Some 0%Z
    | Some t => t
    end in
  match ms stop, ms start with
  | Some e, Some s => Fin (inject_Z (e - s))
  | _, _ => NaN
  end.

(** Lines 147-187, from the state the pass leaves. *)
Definition finish (st : pass_state) : outcome snapshot :=
  match compute_statistics (own_keys (samples st)) (samples st)
          (metrics st) true with
  | Thrown => Thrown
  | NonNumeric => NonNumeric
  | Returned ms =>
      match numeric_points (successfulResponses st) with
      | None => NonNumeric
      | Some responses =>
          let b := fill_buckets responses [] in
          Returned
            {| sn_metrics := ms;
               sn_testDuration :=
                 date_diff (testEndTime st) (testStartTime st);
               sn_timeseriesData :=
                 {| ts_timestamps := timestamps st;
                    ts_vus := vus st;
                    ts_responseTime := responses;
                    ts_requests := requests st;
                    ts_dataTransfer := dataTransfer st;
                    ts_statusCodes := statusCodes st;
                    ts_responseTimeDistribution :=
                      {| buckets := map fst (Obj.values b);
                         counts := map snd (Obj.values b) |} |} |}
      end
  end.

(** [processK6Output]: the number of [console.error] calls and the
    outcome. *)
Definition processK6Output (lines : list line) : nat * outcome snapshot :=
  let st := pass lines in
  (console_errors st, finish st).

(** ** Rendering, lines 190-630 *)

(** The summary lines that depend on [http_reqs], lines 306-309. The
    three counts are printed with [toLocaleString]. *)
Record request_summary : Type := {
  total_requests : nat;
  successful_requests : nat;
  failed_requests : Z;
  success_rate : string
}.

(** The holes of the template literal, in template order. [title_stamp]
    and [test_start] are the two places that show the generation
    timestamp (the second through [toLocaleString]). The chart fields are
    the arrays that [JSON.stringify] embeds in the script. *)
Record report : Type := {
  title_stamp : string;
  test_start : string;
  test_duration : string;
  requests_summary : option request_summary;
  average_response_time : option string;
  time_rows : list (string * list string);
  data_rows : list (string * list string);
  vuTrace_x : list num;
  vuTrace_y : list jsval;
  responseTimeTrace_x : list num;
  responseTimeTrace_y : list Q;
  distData_x : list Z;
  distData_y : list nat;
  sortedResponseTimes : list Q;
  rps_timestamps : list num;
  statusCodes_x : list string;
  statusCounts_y : list nat
}.

(** [data.stats[stat]] as a number: [undefined] on the empty object,
    which every later operation treats as [NaN]. *)
Definition stat (s : stats) (field : summary -> Q) : num :=
  match s with
  | NoStats => NaN
  | Stats v => Fin (field v)
  end.

(** [stats.count] *)
Definition stat_count (s : stats) : option nat :=
  match s with
  | NoStats => None
  | Stats v => Some (s_count v)
  end.

(** [(ok / count * 100).toFixed(2)] *)
Definition rate_text (ok count : nat) : string :=
  match count, ok with
  | O, O => "NaN"
  | O, S _ => "Infinity"
  | S _, _ =>
      toFixed2 (inject_Z (Z.of_nat ok) / inject_Z (Z.of_nat count) * 100)
  end.

(** Lines 305-310. [stats.count.toLocaleString()] throws when the
    statistics of [http_reqs] are the empty object. *)
Definition render_requests (data : snapshot)
  : exc (option request_summary) :=
  match Obj.get "http_reqs" (sn_metrics data) with
  | None => Ok None
  | Some m =>
      match stat_count (m_stats m) with
      | None => TypeError
      | Some count =>
          let ok := match Obj.get "200"
                            (ts_statusCodes (sn_timeseriesData data)) with
                    | Some n => n
                    | None => 0%nat
                    end in
          Ok (Some {| total_requests := count;
                      successful_requests := ok;
                      failed_requests := (Z.of_nat count - Z.of_nat ok)%Z;
                      success_rate := rate_text ok count |})
      end
  end.

(** Lines 311-313. *)
Definition render_average (data : snapshot) : option string :=
  match Obj.get "http_req_duration" (sn_metrics data) with
  | None => None
  | Some m => Some (formatDuration (stat (m_stats m) s_avg))
  end.

(** Lines 333-342. *)
Definition render_time_rows (data : snapshot)
  : list (string * list string) :=
  map (fun e =>
         (fst e,
          map (fun field => formatDuration (stat (m_stats (snd e)) field))
              [s_min; s_max; s_avg; s_med; s_p90; s_p95; s_p99]))
      (filter (fun e => String.eqb (m_unit (snd e)) "time")
              (Obj.entries (sn_metrics data))).

(** [data.stats.avg * metrics.http_reqs.stats.count], line 369. *)
Definition total_bytes (data : snapshot) (m : metric) : exc num :=
  match Obj.get "http_reqs" (sn_metrics data) with
  | None => TypeError
  | Some reqs =>
      Ok (match stat (m_stats m) s_avg, stat_count (m_stats reqs) with
          | Fin avg, Some count => Fin (avg * inject_Z (Z.of_nat count))
          | _, _ => NaN
          end)
  end.

(** Lines 361-371. *)
Fixpoint render_data_rows (data : snapshot) (es : list (string * metric))
  : exc (list (string * list string)) :=
  match es with
  | [] => Ok []
  | (name, m) :: es' =>
      match total_bytes data m with
      | TypeError => TypeError
      | Ok total =>
          match render_data_rows data es' with
          | TypeError => TypeError
          | Ok rows =>
              Ok ((name,
                   [formatBytes (stat (m_stats m) s_min);
                    formatBytes (stat (m_stats m) s_max);
                    formatBytes (stat (m_stats m) s_avg);
                    formatBytes total]) :: rows)
          end
      end
  end.

(** [generateHTML(data)] with the clock reading [now] of line 192. *)
Definition generateHTML (now : string) (data : snapshot) : exc report :=
  let ts := sn_timeseriesData data in
  match render_requests data with
  | TypeError => TypeError
  | Ok reqs =>
      match render_data_rows data
              (filter (fun e => String.eqb (m_unit (snd e)) "data")
                      (Obj.entries (sn_metrics data))) with
      | TypeError => TypeError
      | Ok drows =>
          Ok {| title_stamp := now;
                test_start := now;
                test_duration := formatDuration (sn_testDuration data);
                requests_summary := reqs;
                average_response_time := render_average data;
                time_rows := render_time_rows data;
                data_rows := drows;
                vuTrace_x := ts_timestamps ts;
                vuTrace_y := ts_vus ts;
                responseTimeTrace_x := map np_timestamp (ts_responseTime ts);
                responseTimeTrace_y := map np_value (ts_responseTime ts);
                distData_x := buckets (ts_responseTimeDistribution ts);
                distData_y := counts (ts_responseTimeDistribution ts);
                sortedResponseTimes :=
                  sort (map np_value (ts_responseTime ts));
                rps_timestamps := ts_timestamps ts;
                statusCodes_x := Obj.own_keys (ts_statusCodes ts);
                statusCounts_y := Obj.values (ts_statusCodes ts) |}
      end
  end.

(** ** The script of the report, lines 520-536 *)

(** [Math.floor(timestamp)] on an element of the embedded array, where
    [JSON.stringify] has written [NaN] as [null]. *)
Definition script_floor (t : num) : Z :=
  match t with
  | Fin q => Qfloor q
  | NaN => 0%Z
  end.

(** [{timestamp, rps}]; the timestamp is [None] for [NaN]. *)
Record rps_point : Type := {
  rps_timestamp : option Z;
  rps : nat
}.

Fixpoint rps_loop (ts : list num) (currentSecond : option Z)
  (requestCount : nat) (rpsData : list rps_point) : list rps_point :=
  match ts with
  | [] => rpsData
  | timestamp :: ts' =>
      if match currentSecond with
         | Some c => Z.eqb (script_floor timestamp) c
         | None => false
         end
      then rps_loop ts' currentSecond (S requestCount) rpsData
      else rps_loop ts' (Some (script_floor timestamp)) 1
             (rpsData ++ [{| rps_timestamp := currentSecond;
                             rps := requestCount |}])
  end.

(** [rpsData] after the loop, from the embedded timestamps. *)
Definition rpsData (ts : list num) : list rps_point :=
  rps_loop ts
    (match ts with
     | [] => None
     | t :: _ => Some (script_floor t)
     end) 0 [].

(** ** Main execution, lines 633-645 *)

(** [Returned r]: the report [r] is written; [Thrown]: the run ends in
    [process.exit(1)]. *)
Definition main (now : string) (lines : list line) : outcome report :=
  match snd (processK6Output lines) with
  | Thrown => Thrown
  | NonNumeric => NonNumeric
  | Returned data =>
      match generateHTML now data with
      | TypeError => Thrown
      | Ok html => Returned html
      end
  end.

(** ** What a line contributes, and the conditions used in the statements *)

(** A value on which property access does not throw. *)
Definition present (v : jsval) : bool :=
  match v with
  | None => false
  | Some JNull => false
  | Some _ => true
  end.

(** Whether the tag set of a sample carries [status == "200"]. *)
Definition has_status_200 (d : jsval) : bool :=
  is_str (opt_prop (opt_prop d "tags") "status") "200".

(** The metric and value that lines 132-141 accumulate from a parsed
    line, if any. *)
Definition sample_of (j : json) : option (jsval * jsval) :=
  let d := opt_prop (Some j) "data" in
  let metricName := opt_prop (Some j) "metric" in
  if is_str (opt_prop (Some j) "type") "Point" && present d then
    if is_str metricName "http_req_duration" && negb (has_status_200 d)
    then None
    else Some (metricName, opt_prop d "value")
  else None.

(** The status that lines 86-89 count from a parsed line, if any. *)
Definition counted_status (j : json) : option jsval :=
  let d := opt_prop (Some j) "data" in
  let status := opt_prop (opt_prop d "tags") "status" in
  if is_str (opt_prop (Some j) "type") "Point"
     && truthy (opt_prop d "time")
     && is_str (opt_prop (Some j) "metric") "http_reqs"
     && truthy status
  then Some status
  else None.

(** The name and object that lines 121-129 define from a parsed line, if
    any. *)
Definition definition_of (j : json) : option (string * metric) :=
  let d := opt_prop (Some j) "data" in
  if is_str (opt_prop (Some j) "type") "Metric" && present d then
    Some (key_of (opt_prop d "name"),
          {| m_type := opt_prop d "type";
             m_contains := opt_prop d "contains";
             m_values := [];
             m_stats := NoStats;
             m_unit := getMetricUnit (key_of (opt_prop d "name")) |})
  else None.

(** The parts of the state that the statistics and the summary read. *)
Definition same_aggregates (st st' : pass_state) : Prop :=
  samples st' = samples st /\ metrics st' = metrics st /\
  statusCodes st' = statusCodes st /\ console_errors st' = console_errors st.

(** Whether the [try] block throws on a parsed line. *)
Definition throws (j : json) : bool :=
  let type := opt_prop (Some j) "type" in
  negb (present (Some j))
  || ((is_str type "Point" || is_str type "Metric")
      && negb (present (opt_prop (Some j) "data"))).


(** The values accumulated under a name. *)
Definition values_of (smp : obj (list jsval)) (name : string) : list jsval :=
  match Obj.get name smp with
  | Some vs => vs
  | None => []
  end.

(** What the loop of lines 151-169 makes of the metric [name]. *)
Definition stats_for (smp : obj (list jsval)) (name : string) (m : metric)
  : metric :=
  if Nat.ltb 0 (List.length (values_of smp name)) then
    match numbers_of (values_of smp name) with
    | Some qs => set_stats (Stats (statistics (sort qs))) m
    | None => m
    end
  else m.

(** Every name under which samples were accumulated is a defined metric. *)
Definition sampled_defined (st : pass_state) : bool :=
  forallb (fun name => match Obj.get name (metrics st) with
                       | Some _ => true
                       | None => false
                       end)
          (own_keys (samples st)).

(** Every accumulated sample value is a number. *)
Definition numeric_log (st : pass_state) : bool :=
  forallb (fun name => match numbers_of (values_of (samples st) name) with
                       | Some _ => true
                       | None => false
                       end)
          (own_keys (samples st)).

(** The reported value of one statistic of a metric, if the run returns
    and the metric has statistics. *)
Definition reported (field : summary -> Q) (name : string)
  (r : outcome snapshot) : option Q :=
  match r with
  | Returned data =>
      match Obj.get name (sn_metrics data) with
      | Some m =>
          match m_stats m with
          | Stats s => Some (field s)
          | NoStats => None
          end
      | None => None
      end
  | _ => None
  end.

(** Successful [http_req_duration] samples with the given values, after
    the definition of the metric. *)
Definition duration_log (values : list Q) : list line :=
  metric_line "http_req_duration" "trend" "time"
  :: map (fun v => point_line "http_req_duration" 1000 v [("status", "200")])
         values.

(** Metrics carry no statistics until the pass is over. *)
Definition without_stats (ms : obj metric) : Prop :=
  forall name m, Obj.get name ms = Some m -> m_stats m = NoStats.


(** The value a line contributes to the samples of the name [k], if any. *)
Definition contribution (k : string) (l : line) : list jsval :=
  match l with
  | Parsed j =>
      match sample_of j with
      | Some (name, value) => if String.eqb (key_of name) k then [value] else []
      | None => []
      end
  | _ => []
  end.

(** Every tracked response time is among the samples of
    [http_req_duration]. *)
Definition responses_sampled (st : pass_state) : Prop :=
  forall p, In p (successfulResponses st) ->
            In (p_value p) (values_of (samples st) "http_req_duration").

(** The sum of the per-status-code counts. *)
Definition histogram_total (codes : obj nat) : nat :=
  list_sum (Obj.values codes).

(** A line whose status lines 86-89 count. *)
Definition is_counted (l : line) : bool :=
  match l with
  | Parsed j =>
      match counted_status j with
      | Some _ => true
      | None => false
      end
  | _ => false
  end.

(** A line whose value is accumulated under ["http_reqs"]. *)
Definition is_request_sample (l : line) : bool :=
  match l with
  | Parsed j =>
      match sample_of j with
      | Some (name, _) => String.eqb (key_of name) "http_reqs"
      | None => false
      end
  | _ => false
  end.

Definition count_lines (p : line -> bool) (lines : list line) : nat :=
  List.length (filter p lines).



(** A point that lines 78-118 track: it has a truthy [data.time]. *)
Definition tracked (j : json) : bool :=
  is_str (opt_prop (Some j) "type") "Point"
  && truthy (opt_prop (opt_prop (Some j) "data") "time").

(** The date of a tracked point. *)
Definition tracked_date (j : json) : date :=
  new_Date (opt_prop (opt_prop (Some j) "data") "time").

(** Line 82 on the start of the test. *)
Definition update_start (d : date) (start : option date) : option date :=
  match start with
  | None => Some d
  | Some s => if date_ltb d s then Some d else start
  end.

(** Line 83 on the end of the test. *)
Definition update_end (d : date) (stop : option date) : option date :=
  match stop with
  | None => Some d
  | Some e => if date_ltb e d then Some d else stop
  end.

(** The dates of the tracked points of a log, in log order. *)
Definition tracked_dates (lines : list line) : list date :=
  flat_map (fun l => match l with
                     | Parsed j => if tracked j then [tracked_date j] else []
                     | _ => []
                     end) lines.

(** A tracked [vus] point. *)
Definition is_vus_point (l : line) : bool :=
  match l with
  | Parsed j => tracked j && is_str (opt_prop (Some j) "metric") "vus"
  | _ => false
  end.

(** The chart point that a tracked [vus] point gives. *)
Definition vus_point (l : line) : list (num * jsval) :=
  match l with
  | Parsed j =>
      if tracked j && is_str (opt_prop (Some j) "metric") "vus"
      then [(seconds_of (tracked_date j),
             opt_prop (opt_prop (Some j) "data") "value")]
      else []
  | _ => []
  end.


(** The names of the metrics are distinct and every metric has the unit
    that [getMetricUnit] gives its name. *)
Definition metrics_ok (ms : obj metric) : Prop :=
  NoDup (map fst ms) /\
  forall name m, Obj.get name ms = Some m -> m_unit m = getMetricUnit name.


(** A line whose status lines 86-89 count under the key [code]. *)
Definition has_status (code : string) (l : line) : bool :=
  match l with
  | Parsed j =>
      match counted_status j with
      | Some status => String.eqb (key_of status) code
      | None => false
      end
  | _ => false
  end.



(** The chart point that a tracked [http_req_duration] point with the
    status tag ["200"] gives. *)
Definition response_point (l : line) : list point :=
  match l with
  | Parsed j =>
      let d := opt_prop (Some j) "data" in
      if tracked j
         && is_str (opt_prop (Some j) "metric") "http_req_duration"
         && has_status_200 d
      then [{| p_timestamp := seconds_of (tracked_date j);
               p_value := opt_prop d "value" |}]
      else []
  | _ => []
  end.

(** The seconds that a list of runs stands for: each second as often as
    the run counts it. *)
Definition expand (runs : list rps_point) : list (option Z) :=
  flat_map (fun p => repeat (rps_timestamp p) (rps p)) runs.

(** No two neighbours are equal. *)
Fixpoint distinct_neighbours (l : list (option Z)) : Prop :=
  match l with
  | a :: (b :: _) as l' => a <> b /\ distinct_neighbours l'
  | _ => True
  end.

(** ** Lemmas on objects *)

Lemma get_set (V : Type) (k k' : string) (v : V) (o : obj V) :
  Obj.get k' (Obj.set k v o) = if String.eqb k k' then Some v else Obj.get k' o.
Proof.
  unfold Obj.get.
  induction o as [|[k0 v0] o IH]; simpl.
  - rewrite (String.eqb_sym k' k). reflexivity.
  - destruct (String.eqb k k0) eqn:E0; simpl.
    + apply String.eqb_eq in E0; subst k0.
      rewrite (String.eqb_sym k' k).
      destruct (String.eqb k k'); reflexivity.
    + destruct (String.eqb k' k0) eqn:E1.
      * apply String.eqb_eq in E1; subst k0.
        rewrite E0. reflexivity.
      * apply IH.
Qed.

Lemma get_set_same (V : Type) (k : string) (v : V) (o : obj V) :
  Obj.get k (Obj.set k v o) = Some v.
Proof. rewrite get_set, String.eqb_refl. reflexivity. Qed.

Lemma get_In (V : Type) (k : string) (o : obj V) :
  Obj.get k o <> None <-> In k (map fst o).
Proof.
  unfold Obj.get.
  induction o as [|[k0 v0] o IH]; simpl.
  - split; [congruence | tauto].
  - destruct (String.eqb k k0) eqn:E.
    + apply String.eqb_eq in E. split; [auto | congruence].
    + apply String.eqb_neq in E. rewrite IH.
      split; [auto | intros [H|H]; [congruence | exact H]].
Qed.

Lemma insert_index_In (V : Type) (i : N) (e : string * V) x l :
  In x (Obj.insert_index i e l) <-> x = (i, e) \/ In x l.
Proof.
  induction l as [|[j e'] l IH]; simpl.
  - intuition.
  - destruct (i <? j)%N; simpl; rewrite ?IH; intuition.
Qed.

Lemma indexed_In (V : Type) (e : string * V) (o : obj V) :
  In e (map snd (Obj.indexed o)) <->
  In e o /\ Obj.array_index (fst e) <> None.
Proof.
  induction o as [|[k v] o IH]; simpl.
  - tauto.
  - destruct (Obj.array_index k) eqn:E.
    + rewrite in_map_iff. split.
      * intros [[i x] [Hx Hin]]; simpl in Hx; subst x.
        apply insert_index_In in Hin. destruct Hin as [Heq | Hin].
        -- inversion Heq; subst. simpl. split; [auto | congruence].
        -- assert (H : In e (map snd (Obj.indexed o)))
             by (apply in_map_iff; exists (i, e); auto).
           apply IH in H. tauto.
      * intros [[Heq | Hin] Hidx].
        -- subst e. exists (n, (k, v)). split; [reflexivity |].
           apply insert_index_In. auto.
        -- assert (H : In e (map snd (Obj.indexed o))) by (apply IH; auto).
           apply in_map_iff in H. destruct H as [[i x] [Hx Hi]].
           simpl in Hx; subst x.
           exists (i, e). split; [reflexivity |].
           apply insert_index_In. auto.
    + rewrite IH. split.
      * tauto.
      * intros [[Heq | Hin] Hidx]; [subst e; simpl in Hidx; congruence | tauto].
Qed.

Lemma entries_In (V : Type) (e : string * V) (o : obj V) :
  In e (Obj.entries o) <-> In e o.
Proof.
  unfold Obj.entries, Obj.named.
  rewrite in_app_iff, indexed_In, filter_In.
  destruct (Obj.array_index (fst e)); split; intros H.
  - destruct H as [[H _] | [_ H]]; [exact H | discriminate].
  - left. split; [exact H | congruence].
  - destruct H as [[_ H] | [H _]]; [congruence | exact H].
  - right. split; [exact H | reflexivity].
Qed.

Lemma own_keys_In (V : Type) (k : string) (o : obj V) :
  In k (Obj.own_keys o) <-> Obj.get k o <> None.
Proof.
  rewrite get_In. unfold Obj.own_keys. rewrite !in_map_iff.
  split; intros [e [He Hin]]; exists e; (split; [exact He |]);
    apply entries_In; exact Hin.
Qed.

(** ** Lemmas on the sort *)

Lemma insert_sorted_perm (x : Q) (l : list Q) :
  Permutation (x :: l) (insert_sorted x l).
Proof.
  induction l as [|y l IH]; simpl.
  - apply Permutation_refl.
  - destruct (Qle_bool x y).
    + apply Permutation_refl.
    + apply perm_trans with (y :: x :: l).
      * apply perm_swap.
      * apply perm_skip. exact IH.
Qed.

Lemma sort_perm (l : list Q) : Permutation l (sort l).
Proof.
  induction l as [|x l IH]; simpl.
  - apply perm_nil.
  - apply perm_trans with (x :: sort l).
    + apply perm_skip. exact IH.
    + apply insert_sorted_perm.
Qed.

Lemma sort_length (l : list Q) : List.length (sort l) = List.length l.
Proof. symmetry. apply Permutation_length, sort_perm. Qed.

Lemma Qle_bool_false (x y : Q) : Qle_bool x y = false -> (y <= x)%Q.
Proof.
  intros H. destruct (Qlt_le_dec y x) as [Hlt | Hle].
  - apply Qlt_le_weak. exact Hlt.
  - apply Qle_bool_iff in Hle. congruence.
Qed.

Lemma insert_sorted_Sorted (x : Q) (l : list Q) :
  Sorted Qle l -> Sorted Qle (insert_sorted x l).
Proof.
  induction l as [|y l IH]; simpl; intros Hs.
  - constructor; constructor.
  - destruct (Qle_bool x y) eqn:E.
    + constructor; [exact Hs |].
      constructor. apply Qle_bool_iff. exact E.
    + inversion Hs as [|? ? Hs' Hhd]; subst.
      constructor; [apply IH; exact Hs' |].
      destruct l as [|z l]; simpl.
      * constructor. apply Qle_bool_false. exact E.
      * destruct (Qle_bool x z).
        -- constructor. apply Qle_bool_false. exact E.
        -- inversion Hhd; subst. constructor. assumption.
Qed.

Lemma sort_Sorted (l : list Q) : Sorted Qle (sort l).
Proof.
  induction l as [|x l IH]; simpl.
  - constructor.
  - apply insert_sorted_Sorted. exact IH.
Qed.

(** In an ascending list a later index holds a value at least as large. *)
Lemma Sorted_at_index (l : list Q) :
  Sorted Qle l ->
  forall i j, (i <= j)%nat -> (j < List.length l)%nat ->
  (at_index l i <= at_index l j)%Q.
Proof.
  unfold at_index.
  intros Hs. apply Sorted_StronglySorted in Hs.
  2:{ intros a b c. apply Qle_trans. }
  induction Hs as [|x l Hs IH Hall]; intros i j Hij Hj.
  - simpl in Hj. lia.
  - destruct j as [|j].
    + assert (i = 0)%nat by lia. subst i. apply Qle_refl.
    + destruct i as [|i].
      * simpl. rewrite Forall_forall in Hall. apply Hall.
        apply nth_In. simpl in Hj. lia.
      * simpl. apply IH; simpl in Hj; lia.
Qed.

(** ** The callback, block by block *)

Lemma prop_present (v : jsval) (f : string) :
  present v = true -> prop v f = Ok (opt_prop v f).
Proof.
  unfold opt_prop. destruct v as [[]|]; simpl; intros H;
    try discriminate; reflexivity.
Qed.

Lemma present_truthy (v : jsval) : truthy v = true -> present v = true.
Proof. destruct v as [[]|]; simpl; intros H; try discriminate; reflexivity. Qed.

Lemma opt_prop_absent (v : jsval) (f : string) :
  present v = false -> opt_prop v f = None.
Proof.
  unfold opt_prop. destruct v as [[]|]; simpl; intros H;
    try discriminate; reflexivity.
Qed.

Lemma opt_prop_falsy (v : jsval) (f : string) :
  truthy v = false -> opt_prop v f = None.
Proof.
  unfold opt_prop. destruct v as [[]|]; simpl; intros H;
    try discriminate; reflexivity.
Qed.

Lemma bind_eval_Ok (A B : Type) (a : A) (k : A -> M B) :
  bind (eval (Ok a)) k = k a.
Proof. reflexivity. Qed.

Lemma bind_ret (A B : Type) (a : A) (k : A -> M B) : bind (ret a) k = k a.
Proof. reflexivity. Qed.

Ltac step_binds :=
  repeat (first [rewrite bind_eval_Ok | rewrite bind_ret]; cbv beta).

Lemma tags_and_status_ret (tags : jsval) :
  tags_and_status tags
  = ret (if truthy tags then opt_prop tags "status" else tags).
Proof.
  unfold tags_and_status.
  destruct (truthy tags) eqn:E; [| reflexivity].
  rewrite (prop_present tags "status" (present_truthy tags E)).
  reflexivity.
Qed.

Lemma truthy_status (tags : jsval) :
  let status := if truthy tags then opt_prop tags "status" else tags in
  truthy status = truthy (opt_prop tags "status") /\
  (truthy status = true -> status = opt_prop tags "status") /\
  is_str status "200" = is_str (opt_prop tags "status") "200".
Proof.
  destruct (truthy tags) eqn:E; simpl.
  - repeat split; reflexivity.
  - rewrite (opt_prop_falsy tags "status" E). simpl.
    repeat split.
    + exact E.
    + congruence.
    + destruct tags as [[]|]; simpl in *; try reflexivity.
      destruct s; simpl in *; [reflexivity | discriminate].
Qed.

Lemma track_time_range_runs (timestamp : date) (st : pass_state) :
  exists st', track_time_range timestamp st = (st', Normal tt) /\
              same_aggregates st st'.
Proof.
  unfold track_time_range, bind, read, when, modify, ret, same_aggregates.
  cbn.
  destruct (match testStartTime st with
            | Some s => date_ltb timestamp s
            | None => true
            end); cbn;
  match goal with
  | |- context [if ?b then _ else _] => destruct b
  end; cbn; eexists; (split; [reflexivity | repeat split]).
Qed.

Lemma track_status_codes_runs (data d : jsval) (st : pass_state) :
  present data = true -> present d = true ->
  let status := opt_prop (opt_prop d "tags") "status" in
  track_status_codes data d st
  = (if is_str (opt_prop data "metric") "http_reqs" && truthy status
     then with_statusCodes (count_status (key_of status)) st
     else st, Normal tt).
Proof.
  intros Hdata Hd. cbv zeta.
  unfold track_status_codes.
  rewrite (prop_present data "metric" Hdata), (prop_present d "tags" Hd).
  step_binds.
  destruct (is_str (opt_prop data "metric") "http_reqs"); [| reflexivity].
  step_binds. rewrite tags_and_status_ret. step_binds.
  destruct (truthy_status (opt_prop d "tags")) as (Ht & Hs & _).
  cbv zeta in Ht, Hs.
  cbn [andb].
  destruct (truthy (opt_prop (opt_prop d "tags") "status")) eqn:E.
  - rewrite Hs by (rewrite Ht; reflexivity).
    rewrite E. reflexivity.
  - rewrite Ht. reflexivity.
Qed.

Lemma collect_series_runs (data d : jsval) (t : num) (st : pass_state) :
  present data = true -> present d = true ->
  exists st', collect_series data d t st = (st', Normal tt) /\
              same_aggregates st st'.
Proof.
  intros Hdata Hd.
  unfold collect_series.
  rewrite (prop_present data "metric" Hdata), (prop_present d "tags" Hd),
    (prop_present d "value" Hd).
  unfold when. step_binds.
  repeat match goal with
         | |- context [if is_str ?v ?s then _ else _] =>
             destruct (is_str v s); step_binds;
             rewrite ?tags_and_status_ret; step_binds
         end;
    unfold bind, eval, ret, modify, same_aggregates; cbn;
    eexists; (split; [reflexivity | repeat split]).
Qed.

Lemma collect_timeseries_runs (data : jsval) (st : pass_state) :
  present data = true -> present (opt_prop data "data") = true ->
  let d := opt_prop data "data" in
  let status := opt_prop (opt_prop d "tags") "status" in
  exists st',
    collect_timeseries data st = (st', Normal tt) /\
    samples st' = samples st /\ metrics st' = metrics st /\
    console_errors st' = console_errors st /\
    statusCodes st'
    = if is_str (opt_prop data "metric") "http_reqs" && truthy status
      then count_status (key_of status) (statusCodes st)
      else statusCodes st.
Proof.
  intros Hdata Hd. cbv zeta.
  unfold collect_timeseries.
  rewrite (prop_present data "data" Hdata). step_binds.
  rewrite (prop_present _ "time" Hd). step_binds. cbv zeta.
  unfold bind.
  destruct (track_time_range_runs
              (new_Date (opt_prop (opt_prop data "data") "time")) st)
    as (st1 & -> & H1s & H1m & H1c & H1e).
  rewrite (track_status_codes_runs data _ st1 Hdata Hd).
  match goal with
  | |- context [collect_series data ?d ?t ?s] =>
      destruct (collect_series_runs data d t s Hdata Hd)
        as (st3 & -> & H3s & H3m & H3c & H3e)
  end.
  exists st3. split; [reflexivity |].
  rewrite H3s, H3m, H3c, H3e.
  match goal with
  | |- context [if ?b then _ else _] => destruct b
  end; cbn; rewrite ?H1s, ?H1m, ?H1c, ?H1e; repeat split; reflexivity.
Qed.

Lemma collect_sample_runs (data : jsval) (st : pass_state) :
  present data = true -> present (opt_prop data "data") = true ->
  let d := opt_prop data "data" in
  let metricName := opt_prop data "metric" in
  collect_sample data st
  = if is_str metricName "http_req_duration" && negb (has_status_200 d)
    then (st, Return)
    else (with_samples (push_sample (key_of metricName) (opt_prop d "value"))
            st, Normal tt).
Proof.
  intros Hdata Hd. cbv zeta.
  unfold collect_sample, has_status_200.
  rewrite (prop_present data "metric" Hdata), (prop_present data "data" Hdata).
  step_binds.
  rewrite (prop_present _ "tags" Hd), (prop_present _ "value" Hd).
  destruct (is_str (opt_prop data "metric") "http_req_duration");
    step_binds; [| reflexivity].
  destruct (truthy (opt_prop (opt_prop data "data") "tags")) eqn:E; cbn [negb].
  - rewrite (prop_present _ "status" (present_truthy _ E)). step_binds.
    cbn [andb].
    match goal with
    | |- context [is_str ?v "200"] => destruct (is_str v "200")
    end; reflexivity.
  - step_binds. rewrite (opt_prop_falsy _ "status" E). reflexivity.
Qed.

Lemma define_metric_runs (data : jsval) (st : pass_state) :
  present data = true ->
  let d := opt_prop data "data" in
  define_metric data st
  = if present d
    then (with_metrics
            (Obj.set (key_of (opt_prop d "name"))
               {| m_type := opt_prop d "type";
                  m_contains := opt_prop d "contains";
                  m_values := [];
                  m_stats := NoStats;
                  m_unit := getMetricUnit (key_of (opt_prop d "name")) |})
            st, Normal tt)
    else (st, Throw).
Proof.
  intros Hdata. cbv zeta.
  unfold define_metric.
  rewrite (prop_present data "data" Hdata). step_binds.
  destruct (present (opt_prop data "data")) eqn:Hd.
  - rewrite (prop_present _ "name" Hd), (prop_present _ "type" Hd),
      (prop_present _ "contains" Hd).
    reflexivity.
  - destruct (opt_prop data "data") as [[]|]; simpl in Hd;
      try discriminate; reflexivity.
Qed.

Lemma prop_absent (v : jsval) (f : string) :
  present v = false -> prop v f = TypeError.
Proof.
  destruct v as [[]|]; simpl; intros H; try discriminate; reflexivity.
Qed.

Lemma is_str_exclusive (v : jsval) (a b : string) :
  a <> b -> is_str v a = true -> is_str v b = false.
Proof.
  intros Hab. destruct v as [[]|]; simpl; try discriminate.
  intros H. apply String.eqb_eq in H. subst s.
  apply String.eqb_neq. exact Hab.
Qed.

Lemma is_str_present (v : jsval) (f a : string) :
  is_str (opt_prop v f) a = true -> present v = true.
Proof.
  destruct (present v) eqn:E; [reflexivity |].
  rewrite (opt_prop_absent v f E). discriminate.
Qed.

Lemma try_block_other (j : json) (st : pass_state) :
  present (Some j) = true ->
  is_str (opt_prop (Some j) "type") "Point" = false ->
  is_str (opt_prop (Some j) "type") "Metric" = false ->
  try_block (Some j) st = (st, Normal tt).
Proof.
  intros Hj HP HM. unfold try_block.
  rewrite (prop_present (Some j) "type" Hj). step_binds.
  rewrite HP, HM. reflexivity.
Qed.

Lemma try_block_metric (j : json) (st : pass_state) :
  is_str (opt_prop (Some j) "type") "Metric" = true ->
  try_block (Some j) st
  = match define_metric (Some j) st with
    | (st', Normal _) => (st', Normal tt)
    | r => r
    end.
Proof.
  intros HM. unfold try_block.
  rewrite (prop_present (Some j) "type" (is_str_present _ _ _ HM)).
  step_binds.
  rewrite (is_str_exclusive _ (a:="Metric") (b:="Point")) by (congruence || exact HM).
  rewrite HM. step_binds. unfold when. step_binds.
  unfold bind.
  destruct (define_metric (Some j) st) as [st' [[]| |]]; reflexivity.
Qed.

Lemma try_block_point_absent (j : json) (st : pass_state) :
  is_str (opt_prop (Some j) "type") "Point" = true ->
  present (opt_prop (Some j) "data") = false ->
  try_block (Some j) st = (st, Throw).
Proof.
  intros HP Hd. unfold try_block.
  pose proof (is_str_present _ _ _ HP) as Hj.
  rewrite (prop_present (Some j) "type" Hj),
    (prop_present (Some j) "data" Hj).
  step_binds. rewrite HP. step_binds.
  rewrite (prop_absent _ "time" Hd). reflexivity.
Qed.

Lemma try_block_point (j : json) (st : pass_state) :
  is_str (opt_prop (Some j) "type") "Point" = true ->
  present (opt_prop (Some j) "data") = true ->
  try_block (Some j) st
  = collect_sample (Some j)
      (if truthy (opt_prop (opt_prop (Some j) "data") "time")
       then fst (collect_timeseries (Some j) st)
       else st).
Proof.
  intros HP Hd. unfold try_block.
  pose proof (is_str_present _ _ _ HP) as Hj.
  rewrite (prop_present (Some j) "type" Hj),
    (prop_present (Some j) "data" Hj).
  step_binds. rewrite HP. step_binds.
  rewrite (prop_present _ "time" Hd). step_binds.
  rewrite (is_str_exclusive _ (a:="Point") (b:="Metric")) by (congruence || exact HP).
  unfold when.
  destruct (truthy (opt_prop (opt_prop (Some j) "data") "time")).
  - destruct (collect_timeseries_runs (Some j) st Hj Hd) as (st1 & Hct & _).
    unfold bind at 1. rewrite Hct. reflexivity.
  - reflexivity.
Qed.

(** What one parsed line does to the accumulated samples, the metric
    definitions, the status counters and the error count. *)
Lemma process_line_parsed (st : pass_state) (j : json) :
  let st' := process_line st (Parsed j) in
  samples st'
  = match sample_of j with
    | Some (name, value) => push_sample (key_of name) value (samples st)
    | None => samples st
    end /\
  metrics st'
  = match definition_of j with
    | Some (name, m) => Obj.set name m (metrics st)
    | None => metrics st
    end /\
  statusCodes st'
  = match counted_status j with
    | Some status => count_status (key_of status) (statusCodes st)
    | None => statusCodes st
    end /\
  console_errors st'
  = if throws j then S (console_errors st) else console_errors st.
Proof.
  cbv zeta.
  unfold process_line, sample_of, definition_of, counted_status, throws.
  destruct (present (Some j)) eqn:Hj.
  2:{ destruct j; try discriminate. cbn. repeat split; reflexivity. }
  destruct (is_str (opt_prop (Some j) "type") "Point") eqn:HP.
  - (* a Point record *)
    rewrite (is_str_exclusive _ (a:="Point") (b:="Metric") ltac:(congruence) HP).
    cbn [andb orb negb].
    destruct (present (opt_prop (Some j) "data")) eqn:Hd.
    + rewrite (try_block_point j st HP Hd).
      destruct (collect_timeseries_runs (Some j) st Hj Hd)
        as (st1 & Hct & Hs & Hm & He & Hc).
      rewrite Hct. cbn [fst].
      match goal with
      | |- context [collect_sample (Some j) ?s] =>
          rewrite (collect_sample_runs (Some j) s Hj Hd)
      end.
      destruct (truthy (opt_prop (opt_prop (Some j) "data") "time"));
        cbn [andb];
        destruct (is_str (opt_prop (Some j) "metric") "http_req_duration"
                  && negb (has_status_200 (opt_prop (Some j) "data")));
        cbn; rewrite ?Hs, ?Hm, ?He, ?Hc;
        repeat split; try reflexivity;
        destruct (is_str (opt_prop (Some j) "metric") "http_reqs"
                  && truthy (opt_prop (opt_prop (opt_prop (Some j) "data")
                                         "tags") "status"));
        reflexivity.
    + rewrite (try_block_point_absent j st HP Hd).
      rewrite (opt_prop_absent _ "time" Hd).
      cbn. repeat split; reflexivity.
  - cbn [andb orb negb].
    destruct (is_str (opt_prop (Some j) "type") "Metric") eqn:HM.
    + (* a Metric record *)
      rewrite (try_block_metric j st HM).
      rewrite (define_metric_runs (Some j) st Hj).
      destruct (present (opt_prop (Some j) "data")); cbn;
        repeat split; reflexivity.
    + rewrite (try_block_other j st Hj HP HM).
      cbn. repeat split; reflexivity.
Qed.

Lemma values_of_push (k k' : string) (v : jsval) (s : obj (list jsval)) :
  values_of (push_sample k v s) k'
  = if String.eqb k k' then values_of s k ++ [v] else values_of s k'.
Proof.
  unfold values_of, push_sample. rewrite get_set.
  destruct (String.eqb k k'); reflexivity.
Qed.

(** ** Tracked response times are accumulated samples *)

Lemma track_time_range_responses (timestamp : date) (st : pass_state) :
  successfulResponses (fst (track_time_range timestamp st))
  = successfulResponses st.
Proof.
  unfold track_time_range, bind, read, when, modify, ret. cbn.
  destruct (match testStartTime st with
            | Some s => date_ltb timestamp s
            | None => true
            end); cbn;
  match goal with
  | |- context [if ?b then _ else _] => destruct b
  end; reflexivity.
Qed.

Lemma collect_series_responses (data d : jsval) (t : num) (st : pass_state) :
  present data = true -> present d = true ->
  successfulResponses (fst (collect_series data d t st))
  = if is_str (opt_prop data "metric") "http_req_duration"
       && has_status_200 d
    then successfulResponses st
         ++ [{| p_timestamp := t; p_value := opt_prop d "value" |}]
    else successfulResponses st.
Proof.
  intros Hdata Hd.
  unfold collect_series, has_status_200.
  rewrite (prop_present data "metric" Hdata), (prop_present d "tags" Hd),
    (prop_present d "value" Hd).
  destruct (truthy_status (opt_prop d "tags")) as (_ & _ & H200).
  cbv zeta in H200.
  unfold when. step_binds.
  destruct (is_str (opt_prop data "metric") "vus") eqn:Hvus.
  - rewrite (is_str_exclusive _ (a:="vus") (b:="http_req_duration")
               ltac:(discriminate) Hvus).
    reflexivity.
  - destruct (is_str (opt_prop data "metric") "http_req_duration"); cbn [andb].
    + step_binds. rewrite tags_and_status_ret. step_binds.
      rewrite H200.
      destruct (is_str (opt_prop (opt_prop d "tags") "status") "200");
        reflexivity.
    + repeat match goal with
             | |- context [if is_str ?v ?s then _ else _] =>
                 destruct (is_str v s); step_binds;
                 rewrite ?tags_and_status_ret; step_binds
             end; reflexivity.
Qed.

Lemma collect_timeseries_responses (data : jsval) (st : pass_state) :
  present data = true -> present (opt_prop data "data") = true ->
  exists t,
    successfulResponses (fst (collect_timeseries data st))
    = if is_str (opt_prop data "metric") "http_req_duration"
         && has_status_200 (opt_prop data "data")
      then successfulResponses st
           ++ [{| p_timestamp := t;
                  p_value := opt_prop (opt_prop data "data") "value" |}]
      else successfulResponses st.
Proof.
  intros Hdata Hd.
  unfold collect_timeseries.
  rewrite (prop_present data "data" Hdata). step_binds.
  rewrite (prop_present _ "time" Hd). step_binds. cbv zeta.
  eexists.
  unfold bind.
  pose proof (track_time_range_responses
                (new_Date (opt_prop (opt_prop data "data") "time")) st) as H1.
  destruct (track_time_range_runs
              (new_Date (opt_prop (opt_prop data "data") "time")) st)
    as (st1 & E1 & _).
  rewrite E1 in *. cbn [fst] in H1.
  rewrite (track_status_codes_runs data _ st1 Hdata Hd).
  match goal with
  | |- context [collect_series data ?d ?t ?s] =>
      pose proof (collect_series_responses data d t s Hdata Hd) as H3;
      destruct (collect_series_runs data d t s Hdata Hd) as (st3 & E3 & _)
  end.
  rewrite E3 in *. cbn [fst] in *. rewrite H3.
  match goal with
  | |- context [successfulResponses (if ?b then _ else _)] => destruct b
  end; cbn [successfulResponses with_statusCodes]; rewrite H1; reflexivity.
Qed.

Lemma process_line_responses_sampled (st : pass_state) (l : line) :
  responses_sampled st -> responses_sampled (process_line st l).
Proof.
  intros Hinv. destruct l as [| | j]; [exact Hinv | exact Hinv |].
  unfold responses_sampled.
  destruct (process_line_parsed st j) as (Hs & _).
  rewrite Hs. clear Hs. unfold process_line, sample_of.
  destruct (present (Some j)) eqn:Hj.
  2:{ destruct j; try discriminate. cbn. exact Hinv. }
  destruct (is_str (opt_prop (Some j) "type") "Point") eqn:HP.
  - destruct (present (opt_prop (Some j) "data")) eqn:Hd; cbn [andb].
    + rewrite (try_block_point j st HP Hd).
      match goal with
      | |- context [collect_sample (Some j) ?s] =>
          rewrite (collect_sample_runs (Some j) s Hj Hd)
      end.
      destruct (collect_timeseries_responses (Some j) st Hj Hd) as (t & Hr).
      assert (Hkey : is_str (opt_prop (Some j) "metric") "http_req_duration"
                     = true ->
                     key_of (opt_prop (Some j) "metric") = "http_req_duration").
      { destruct (opt_prop (Some j) "metric") as [[]|]; simpl;
          try discriminate.
        intros E. apply String.eqb_eq in E. exact E. }
      assert (Hsame : forall s0 : pass_state,
                 successfulResponses
                   (match
                      (if is_str (opt_prop (Some j) "metric")
                            "http_req_duration"
                          && negb (has_status_200 (opt_prop (Some j) "data"))
                       then (s0, @Return unit)
                       else (with_samples
                               (push_sample (key_of (opt_prop (Some j) "metric"))
                                  (opt_prop (opt_prop (Some j) "data") "value"))
                               s0, Normal tt))
                    with
                    | (st', Throw) => console_error st'
                    | (st', _) => st'
                    end) = successfulResponses s0).
      { intros s0.
        destruct (is_str (opt_prop (Some j) "metric") "http_req_duration"
                  && negb (has_status_200 (opt_prop (Some j) "data")));
          reflexivity. }
      rewrite Hsame.
      destruct (truthy (opt_prop (opt_prop (Some j) "data") "time")).
      * rewrite Hr.
        destruct (is_str (opt_prop (Some j) "metric") "http_req_duration")
          eqn:Hm; cbn [andb negb].
        -- destruct (has_status_200 (opt_prop (Some j) "data")); cbn [negb].
           ++ intros p Hin. rewrite values_of_push, (Hkey eq_refl).
              rewrite String.eqb_refl.
              apply in_app_iff. apply in_app_iff in Hin.
              destruct Hin as [Hin | [<- | []]].
              ** left. apply Hinv. exact Hin.
              ** right. left. reflexivity.
           ++ exact Hinv.
        -- intros p Hin. rewrite values_of_push.
           destruct (String.eqb _ "http_req_duration") eqn:E;
             [apply String.eqb_eq in E; rewrite E; apply in_app_iff; left |];
             apply Hinv; exact Hin.
      * destruct (is_str (opt_prop (Some j) "metric") "http_req_duration"
                  && negb (has_status_200 (opt_prop (Some j) "data")));
          [exact Hinv |].
        intros p Hin. rewrite values_of_push.
        destruct (String.eqb _ "http_req_duration") eqn:E;
          [apply String.eqb_eq in E; rewrite E; apply in_app_iff; left |];
          apply Hinv; exact Hin.
    + rewrite (try_block_point_absent j st HP Hd). cbn. exact Hinv.
  - cbn [andb].
    destruct (is_str (opt_prop (Some j) "type") "Metric") eqn:HM.
    + rewrite (try_block_metric j st HM).
      rewrite (define_metric_runs (Some j) st Hj).
      destruct (present (opt_prop (Some j) "data")); cbn; exact Hinv.
    + rewrite (try_block_other j st Hj HP HM). cbn. exact Hinv.
Qed.

Lemma pass_responses_sampled (lines : list line) :
  responses_sampled (pass lines).
Proof.
  unfold pass.
  assert (H : forall st, responses_sampled st ->
                         responses_sampled (fold_left process_line lines st)).
  { induction lines as [|l lines IH]; intros st Hst; simpl.
    - exact Hst.
    - apply IH, process_line_responses_sampled, Hst. }
  apply H. intros p [].
Qed.

Lemma numbers_of_In (vs : list jsval) (qs : list Q) (v : jsval) :
  numbers_of vs = Some qs -> In v vs -> as_number v <> None.
Proof.
  revert qs. induction vs as [|x vs IH]; intros qs H Hin; simpl in *.
  - destruct Hin.
  - destruct (as_number x) eqn:Ex; [| discriminate].
    destruct (numbers_of vs) as [qs'|]; [| discriminate].
    destruct Hin as [<- | Hin]; [congruence | exact (IH qs' eq_refl Hin)].
Qed.

Lemma numeric_points_defined (ps : list point) :
  (forall p, In p ps -> as_number (p_value p) <> None) ->
  numeric_points ps <> None.
Proof.
  induction ps as [|p ps IH]; intros H; simpl.
  - discriminate.
  - destruct (as_number (p_value p)) eqn:E.
    + destruct (numeric_points ps) eqn:E'; [discriminate |].
      exfalso. apply IH; [| reflexivity].
      intros p' Hin. apply H. right. exact Hin.
    + exfalso. apply (H p); [left; reflexivity | exact E].
Qed.

(** ** The error count does not influence the pass *)

















(** ** The statistics loop *)

Lemma stats_for_idempotent smp name m :
  stats_for smp name (stats_for smp name m) = stats_for smp name m.
Proof.
  unfold stats_for.
  destruct (Nat.ltb 0 (List.length (values_of smp name))); [| reflexivity].
  destruct (numbers_of (values_of smp name)); reflexivity.
Qed.

Lemma compute_statistics_not_numeric names smp ms data :
  compute_statistics names smp ms false <> Returned data.
Proof.
  revert ms. induction names as [|n names IH]; intros ms; simpl.
  - discriminate.
  - destruct (Nat.ltb 0 _); [| apply IH].
    destruct (Obj.get n ms); [| discriminate].
    destruct (numbers_of _); apply IH.
Qed.

Lemma compute_statistics_get names smp :
  forall ms numeric ms',
    compute_statistics names smp ms numeric = Returned ms' ->
    forall name,
      Obj.get name ms'
      = if existsb (String.eqb name) names
        then option_map (stats_for smp name) (Obj.get name ms)
        else Obj.get name ms.
Proof.
  induction names as [|n names IH]; intros ms numeric ms' H name; simpl in *.
  - destruct numeric; [| discriminate]. inversion H; subst. reflexivity.
  - fold (values_of smp n) in H.
    assert (Hid : forall x : option metric, option_map (fun m => m) x = x)
      by (intros [x|]; reflexivity).
    destruct (Nat.ltb 0 (List.length (values_of smp n))) eqn:Hlen.
    + destruct (Obj.get n ms) as [m|] eqn:Hm; [| discriminate].
      destruct (numbers_of (values_of smp n)) as [qs|] eqn:Hq.
      * rewrite (IH _ _ _ H name), get_set.
        destruct (String.eqb name n) eqn:E.
        -- apply String.eqb_eq in E. subst n. rewrite String.eqb_refl, Hm.
           assert (Hs : stats_for smp name m
                        = set_stats (Stats (statistics (sort qs))) m)
             by (unfold stats_for; rewrite Hlen, Hq; reflexivity).
           rewrite <- Hs.
           destruct (existsb (String.eqb name) names); simpl;
             rewrite ?stats_for_idempotent; reflexivity.
        -- rewrite (String.eqb_sym n name), E. reflexivity.
      * exfalso. exact (compute_statistics_not_numeric _ _ _ H).
    + rewrite (IH _ _ _ H name).
      destruct (String.eqb name n) eqn:E; [| reflexivity].
      apply String.eqb_eq in E. subst n. simpl.
      assert (Hs : forall m, stats_for smp name m = m)
        by (intros m; unfold stats_for; rewrite Hlen; reflexivity).
      destruct (existsb (String.eqb name) names);
        destruct (Obj.get name ms); simpl; rewrite ?Hs; reflexivity.
Qed.

Lemma compute_statistics_returns names smp :
  forall ms,
    (forall n, In n names -> Obj.get n ms <> None) ->
    (forall n, In n names -> numbers_of (values_of smp n) <> None) ->
    exists ms', compute_statistics names smp ms true = Returned ms'.
Proof.
  induction names as [|n names IH]; intros ms Hdef Hnum; simpl.
  - eauto.
  - fold (values_of smp n).
    assert (Hrest : forall ms1,
               (forall k, Obj.get k ms <> None -> Obj.get k ms1 <> None) ->
               exists ms', compute_statistics names smp ms1 true = Returned ms').
    { intros ms1 Hmono. apply IH.
      - intros k Hk. apply Hmono, Hdef. right. exact Hk.
      - intros k Hk. apply Hnum. right. exact Hk. }
    destruct (Nat.ltb 0 (List.length (values_of smp n))).
    + destruct (Obj.get n ms) as [m|] eqn:Hm.
      2:{ exfalso. apply (Hdef n); [left; reflexivity | exact Hm]. }
      destruct (numbers_of (values_of smp n)) as [qs|] eqn:Hq.
      2:{ exfalso. apply (Hnum n); [left; reflexivity | exact Hq]. }
      apply Hrest. intros k Hk. rewrite get_set.
      destruct (String.eqb n k); [discriminate | exact Hk].
    + apply Hrest. auto.
Qed.


Lemma existsb_own_keys (V : Type) (name : string) (o : obj V) :
  existsb (String.eqb name) (own_keys o) = false -> Obj.get name o = None.
Proof.
  intros H. destruct (Obj.get name o) eqn:E; [| reflexivity].
  assert (Hin : In name (own_keys o)) by (apply own_keys_In; congruence).
  assert (Ht : existsb (String.eqb name) (own_keys o) = true).
  { apply existsb_exists. exists name. split; [exact Hin |].
    apply String.eqb_refl. }
  congruence.
Qed.

(** The metrics of a returned snapshot are those of the pass with the
    statistics assigned. *)
Lemma finish_metrics (st : pass_state) (data : snapshot) :
  finish st = Returned data ->
  forall name,
    Obj.get name (sn_metrics data)
    = option_map (stats_for (samples st) name) (Obj.get name (metrics st)).
Proof.
  unfold finish. intros H name.
  destruct (compute_statistics (own_keys (samples st)) (samples st)
              (metrics st) true) as [ms| |] eqn:Hc; try discriminate.
  destruct (numeric_points (successfulResponses st)); [| discriminate].
  inversion H; subst; clear H. cbn [sn_metrics].
  rewrite (compute_statistics_get _ _ _ _ Hc name).
  destruct (existsb (String.eqb name) (own_keys (samples st))) eqn:E;
    [reflexivity |].
  apply existsb_own_keys in E.
  assert (Hs : forall m, stats_for (samples st) name m = m).
  { intros m. unfold stats_for, values_of. rewrite E. reflexivity. }
  destruct (Obj.get name (metrics st)); simpl; rewrite ?Hs; reflexivity.
Qed.

(** The statistics stage returns on a log whose sampled metrics are all
    defined and whose values are all numbers. *)
Lemma finish_returns (st : pass_state) :
  responses_sampled st ->
  sampled_defined st = true -> numeric_log st = true ->
  exists data, finish st = Returned data.
Proof.
  unfold sampled_defined, numeric_log, finish.
  intros Hinv Hdef Hnum.
  rewrite forallb_forall in Hdef, Hnum.
  destruct (compute_statistics_returns (own_keys (samples st)) (samples st)
              (metrics st)) as [ms Hms].
  - intros n Hn. specialize (Hdef n Hn).
    destruct (Obj.get n (metrics st)); [discriminate | discriminate].
  - intros n Hn. specialize (Hnum n Hn).
    destruct (numbers_of (values_of (samples st) n)); [discriminate | discriminate].
  - rewrite Hms.
    destruct (numeric_points (successfulResponses st)) eqn:Hresp; [eauto |].
    exfalso. revert Hresp. apply numeric_points_defined.
    intros p Hin. specialize (Hinv p Hin).
    assert (Hkey : In "http_req_duration" (own_keys (samples st))).
    { apply own_keys_In. unfold values_of in Hinv.
      destruct (Obj.get "http_req_duration" (samples st));
        [discriminate | destruct Hinv]. }
    specialize (Hnum _ Hkey).
    destruct (numbers_of (values_of (samples st) "http_req_duration"))
      as [qs|] eqn:Hq; [| discriminate].
    exact (numbers_of_In _ _ Hq Hinv).
Qed.


(** ** Percentiles *)

Lemma numbers_of_length (vs : list jsval) (qs : list Q) :
  numbers_of vs = Some qs -> List.length qs = List.length vs.
Proof.
  revert qs. induction vs as [|v vs IH]; intros qs H; simpl in H.
  - inversion H. reflexivity.
  - destruct (as_number v); [| discriminate].
    destruct (numbers_of vs) as [qs'|]; [| discriminate].
    inversion H; subst. simpl. rewrite (IH qs' eq_refl). reflexivity.
Qed.

(** Lines 157-165 read inside the array. *)
Lemma percentile_indices_in_range (N : nat) :
  (0 < N)%nat ->
  (N - 1 < N /\ N / 2 < N /\ N / 2 - 1 < N /\
   N * 9 / 10 < N /\ N * 95 / 100 < N /\ N * 99 / 100 < N)%nat.
Proof.
  intros H.
  pose proof (Nat.div_mod_eq (N * 9) 10).
  pose proof (Nat.mod_upper_bound (N * 9) 10).
  pose proof (Nat.div_mod_eq (N * 95) 100).
  pose proof (Nat.mod_upper_bound (N * 95) 100).
  pose proof (Nat.div_mod_eq (N * 99) 100).
  pose proof (Nat.mod_upper_bound (N * 99) 100).
  pose proof (Nat.div_mod_eq N 2).
  pose proof (Nat.mod_upper_bound N 2).
  repeat split; lia.
Qed.



Lemma process_line_without_stats (st : pass_state) (l : line) :
  without_stats (metrics st) -> without_stats (metrics (process_line st l)).
Proof.
  intros H. destruct l as [| | j]; [exact H | exact H |].
  destruct (process_line_parsed st j) as (_ & Hm & _).
  rewrite Hm. unfold definition_of.
  destruct (is_str (opt_prop (Some j) "type") "Metric"
            && present (opt_prop (Some j) "data")); [| exact H].
  intros name m. rewrite get_set.
  destruct (String.eqb _ name).
  - intros E. inversion E; subst. reflexivity.
  - apply H.
Qed.

Lemma fold_without_stats (lines : list line) (st : pass_state) :
  without_stats (metrics st) ->
  without_stats (metrics (fold_left process_line lines st)).
Proof.
  revert st. induction lines as [|l lines IH]; intros st H; simpl.
  - exact H.
  - apply IH, process_line_without_stats, H.
Qed.

Lemma pass_without_stats (lines : list line) :
  without_stats (metrics (pass lines)).
Proof.
  apply fold_without_stats. intros name m H. discriminate.
Qed.

(** The statistics a returned snapshot shows for a metric are those of
    the sorted samples accumulated under its name. *)
Lemma returned_stats (lines : list line) (data : snapshot)
  (name : string) (m : metric) (s : summary) :
  finish (pass lines) = Returned data ->
  Obj.get name (sn_metrics data) = Some m ->
  m_stats m = Stats s ->
  exists qs,
    numbers_of (values_of (samples (pass lines)) name) = Some qs /\
    (0 < List.length qs)%nat /\
    s = statistics (sort qs).
Proof.
  intros Hfin Hget Hstats.
  rewrite (finish_metrics _ Hfin name) in Hget.
  destruct (Obj.get name (metrics (pass lines))) as [m0|] eqn:Hm0;
    [| discriminate].
  pose proof (pass_without_stats lines name Hm0) as Hno.
  simpl in Hget. inversion Hget as [Hm]; clear Hget.
  unfold stats_for in Hm.
  destruct (Nat.ltb 0 (List.length (values_of (samples (pass lines)) name)))
    eqn:Hlen.
  2:{ subst m. congruence. }
  destruct (numbers_of (values_of (samples (pass lines)) name)) as [qs|] eqn:Hq.
  2:{ subst m. congruence. }
  exists qs. split; [reflexivity |]. split.
  - rewrite (numbers_of_length _ Hq). apply Nat.ltb_lt. exact Hlen.
  - subst m. simpl in Hstats. congruence.
Qed.

(** The statistics of a sampled metric are read from the sorted samples
    at the nearest-rank indices. *)
Lemma percentiles_of_samples :
  forall (lines : list line) (name : string) (qs : list Q),
      sampled_defined (pass lines) = true ->
      numeric_log (pass lines) = true ->
      numbers_of (values_of (samples (pass lines)) name) = Some qs ->
      (0 < List.length qs)%nat ->
      exists data m s,
        snd (processK6Output lines) = Returned data /\
        Obj.get name (sn_metrics data) = Some m /\
        m_stats m = Stats s /\
        let sorted := sort qs in
        let N := List.length qs in
        Sorted Qle sorted /\ Permutation qs sorted /\
        s_count s = N /\
        s_p90 s = at_index sorted (N * 9 / 10) /\
        s_p95 s = at_index sorted (N * 95 / 100) /\
        s_p99 s = at_index sorted (N * 99 / 100) /\
        (N * 9 / 10 < N /\ N * 95 / 100 < N /\ N * 99 / 100 < N)%nat /\
        (N mod 2 = 1%nat -> s_med s = at_index sorted (N / 2)) /\
        (N mod 2 = 0%nat ->
         s_med s
         = ((at_index sorted (N / 2 - 1) + at_index sorted (N / 2)) / 2)%Q).
Proof.
  intros lines name qs Hdef Hnum Hq Hlen.
  destruct (finish_returns (pass_responses_sampled lines) Hdef Hnum)
    as [data Hfin].
  pose proof (numbers_of_length _ Hq) as Hl.
  assert (Hpos : Nat.ltb 0 (List.length (values_of (samples (pass lines)) name))
                 = true)
    by (apply Nat.ltb_lt; lia).
  assert (Hin : In name (own_keys (samples (pass lines)))).
  { apply own_keys_In. unfold values_of in Hpos.
    destruct (Obj.get name (samples (pass lines))); [discriminate | discriminate]. }
  unfold sampled_defined in Hdef. rewrite forallb_forall in Hdef.
  specialize (Hdef name Hin).
  destruct (Obj.get name (metrics (pass lines))) as [m0|] eqn:Hm0;
    [| discriminate].
  exists data, (stats_for (samples (pass lines)) name m0),
    (statistics (sort qs)).
  split; [exact Hfin |].
  split; [rewrite (finish_metrics _ Hfin name), Hm0; reflexivity |].
  split; [unfold stats_for; rewrite Hpos, Hq; reflexivity |].
  cbv zeta.
  destruct (percentile_indices_in_range Hlen) as (_ & _ & _ & R4 & R5 & R6).
  unfold statistics. cbn [s_count s_p90 s_p95 s_p99 s_med].
  rewrite sort_length.
  split; [apply sort_Sorted |].
  split; [apply sort_perm |].
  repeat split; try reflexivity; try assumption.
  - intros Hodd. rewrite Hodd. reflexivity.
  - intros Heven. rewrite Heven. reflexivity.
Qed.


(** ** Which samples are accumulated *)





Lemma fold_values_of (lines : list line) (st : pass_state) (k : string) :
  values_of (samples (fold_left process_line lines st)) k
  = values_of (samples st) k ++ flat_map (contribution k) lines.
Proof.
  revert st. induction lines as [|l lines IH]; intros st; simpl.
  - rewrite app_nil_r. reflexivity.
  - rewrite IH. rewrite app_assoc. f_equal.
    destruct l as [| | j]; simpl; try (rewrite app_nil_r; reflexivity).
    change (match try_block (Some j) st with
            | (st', Throw) => console_error st'
            | (st', _) => st'
            end) with (process_line st (Parsed j)).
    destruct (process_line_parsed st j) as (Hs & _).
    rewrite Hs. destruct (sample_of j) as [[name value]|].
    + rewrite values_of_push.
      destruct (String.eqb (key_of name) k) eqn:E.
      * apply String.eqb_eq in E. rewrite E. reflexivity.
      * rewrite app_nil_r. reflexivity.
    + rewrite app_nil_r. reflexivity.
Qed.

(** The samples of a name after the pass are the contributions of the
    lines, in log order. *)
Lemma pass_values_of (lines : list line) (k : string) :
  values_of (samples (pass lines)) k = flat_map (contribution k) lines.
Proof. unfold pass. rewrite fold_values_of. reflexivity. Qed.





(** ** Requests and status codes *)

Lemma insert_index_perm (V : Type) (i : N) (e : string * V) l :
  Permutation (map snd (Obj.insert_index i e l)) (e :: map snd l).
Proof.
  induction l as [|[j e'] l IH]; simpl.
  - apply Permutation_refl.
  - destruct (i <? j)%N; simpl.
    + apply Permutation_refl.
    + apply perm_trans with (e' :: e :: map snd l).
      * apply perm_skip. exact IH.
      * apply perm_swap.
Qed.

(** [Object.entries] enumerates every property once. *)
Lemma entries_perm (V : Type) (o : obj V) : Permutation (Obj.entries o) o.
Proof.
  unfold Obj.entries, Obj.named.
  induction o as [|[k v] o IH]; simpl.
  - apply perm_nil.
  - destruct (Obj.array_index k); simpl.
    + eapply perm_trans.
      * apply Permutation_app_tail. apply insert_index_perm.
      * simpl. apply perm_skip. exact IH.
    + eapply perm_trans.
      * apply Permutation_sym, Permutation_middle.
      * apply perm_skip. exact IH.
Qed.

Lemma list_sum_perm (l l' : list nat) :
  Permutation l l' -> list_sum l = list_sum l'.
Proof.
  induction 1; simpl; lia.
Qed.

Lemma histogram_total_raw (codes : obj nat) :
  histogram_total codes = list_sum (map snd codes).
Proof.
  unfold histogram_total, Obj.values.
  apply list_sum_perm, Permutation_map, entries_perm.
Qed.

Lemma histogram_total_count (k : string) (codes : obj nat) :
  histogram_total (count_status k codes) = S (histogram_total codes).
Proof.
  rewrite !histogram_total_raw. unfold count_status, Obj.get.
  induction codes as [|[k' n] codes IH]; simpl.
  - reflexivity.
  - destruct (String.eqb k k'); simpl; [lia |].
    rewrite IH. lia.
Qed.

Lemma counted_is_request (l : line) :
  is_counted l = true -> is_request_sample l = true.
Proof.
  destruct l as [| | j]; simpl; try discriminate.
  unfold counted_status, sample_of.
  destruct (is_str (opt_prop (Some j) "type") "Point"); [| discriminate].
  cbn [andb].
  destruct (truthy (opt_prop (opt_prop (Some j) "data") "time")) eqn:Ht;
    [| discriminate].
  assert (Hd : present (opt_prop (Some j) "data") = true).
  { destruct (present (opt_prop (Some j) "data")) eqn:E; [reflexivity |].
    rewrite (opt_prop_absent _ "time" E) in Ht. discriminate. }
  rewrite Hd. cbn [andb].
  destruct (is_str (opt_prop (Some j) "metric") "http_reqs") eqn:Hm;
    [| discriminate].
  rewrite (is_str_exclusive _ (a:="http_reqs") (b:="http_req_duration")
             ltac:(discriminate) Hm).
  cbn [andb]. intros _.
  destruct (opt_prop (Some j) "metric") as [[]|]; simpl in *;
    try discriminate.
  exact Hm.
Qed.

Lemma process_line_counts (st : pass_state) (l : line) :
  histogram_total (statusCodes (process_line st l))
  = (histogram_total (statusCodes st) + if is_counted l then 1 else 0)%nat /\
  List.length (values_of (samples (process_line st l)) "http_reqs")
  = (List.length (values_of (samples st) "http_reqs")
     + if is_request_sample l then 1 else 0)%nat.
Proof.
  destruct l as [| | j]; simpl; [lia | lia |].
  destruct (process_line_parsed st j) as (Hs & _ & Hc & _).
  change (match try_block (Some j) st with
          | (st', Throw) => console_error st'
          | (st', _) => st'
          end) with (process_line st (Parsed j)).
  rewrite Hs, Hc. split.
  - destruct (counted_status j); [rewrite histogram_total_count |]; lia.
  - destruct (sample_of j) as [[name value]|]; [| lia].
    rewrite values_of_push.
    destruct (String.eqb (key_of name) "http_reqs") eqn:E.
    + apply String.eqb_eq in E. rewrite E, length_app. simpl. lia.
    + lia.
Qed.

Lemma fold_counts (lines : list line) (st : pass_state) :
  histogram_total (statusCodes (fold_left process_line lines st))
  = (histogram_total (statusCodes st) + count_lines is_counted lines)%nat /\
  List.length (values_of (samples (fold_left process_line lines st)) "http_reqs")
  = (List.length (values_of (samples st) "http_reqs")
     + count_lines is_request_sample lines)%nat.
Proof.
  unfold count_lines.
  revert st. induction lines as [|l lines IH]; intros st; simpl.
  - lia.
  - destruct (IH (process_line st l)) as [H1 H2].
    destruct (process_line_counts st l) as [H3 H4].
    rewrite H1, H2, H3, H4.
    destruct (is_counted l); destruct (is_request_sample l); simpl; lia.
Qed.



Lemma finish_statusCodes (st : pass_state) (data : snapshot) :
  finish st = Returned data ->
  ts_statusCodes (sn_timeseriesData data) = statusCodes st.
Proof.
  unfold finish. intros H.
  destruct (compute_statistics _ _ _ _); try discriminate.
  destruct (numeric_points _); [| discriminate].
  inversion H; subst. reflexivity.
Qed.

Lemma generateHTML_Ok (now : string) (data : snapshot) (r : report) :
  generateHTML now data = Ok r ->
  render_requests data = Ok (requests_summary r) /\
  statusCounts_y r = Obj.values (ts_statusCodes (sn_timeseriesData data)) /\
  time_rows r = render_time_rows data /\
  render_data_rows data
    (filter (fun e => String.eqb (m_unit (snd e)) "data")
            (Obj.entries (sn_metrics data))) = Ok (data_rows r) /\
  title_stamp r = now /\ test_start r = now.
Proof.
  unfold generateHTML. intros H.
  destruct (render_requests data); [| discriminate].
  destruct (render_data_rows data _); [| discriminate].
  inversion H; subst. cbn. repeat split; reflexivity.
Qed.


(** ** Rendering *)

Lemma get_Some_In (V : Type) (k : string) (v : V) (o : obj V) :
  Obj.get k o = Some v -> In (k, v) o.
Proof.
  unfold Obj.get. induction o as [|[k' v'] o IH]; simpl; [discriminate |].
  destruct (String.eqb k k') eqn:E.
  - apply String.eqb_eq in E. subst k'. intros H. inversion H. auto.
  - auto.
Qed.

Lemma get_entries (V : Type) (k : string) (v : V) (o : obj V) :
  Obj.get k o = Some v -> In (k, v) (Obj.entries o).
Proof. intros H. apply entries_In, get_Some_In, H. Qed.

Lemma render_time_rows_In (data : snapshot) (name : string) (m : metric) :
  In (name, m) (Obj.entries (sn_metrics data)) ->
  m_unit m = "time" ->
  In (name,
      map (fun field => formatDuration (stat (m_stats m) field))
          [s_min; s_max; s_avg; s_med; s_p90; s_p95; s_p99])
     (render_time_rows data).
Proof.
  intros Hin Hunit. unfold render_time_rows.
  apply in_map_iff. exists (name, m). split; [reflexivity |].
  apply filter_In. split; [exact Hin |].
  cbn [snd]. rewrite Hunit. reflexivity.
Qed.

Lemma render_data_rows_In (data : snapshot) (es : list (string * metric))
  (rows : list (string * list string)) (name : string) (m : metric) :
  render_data_rows data es = Ok rows ->
  In (name, m) es ->
  exists total,
    total_bytes data m = Ok total /\
    In (name,
        [formatBytes (stat (m_stats m) s_min);
         formatBytes (stat (m_stats m) s_max);
         formatBytes (stat (m_stats m) s_avg);
         formatBytes total]) rows.
Proof.
  revert rows. induction es as [|[n x] es IH]; intros rows H Hin; simpl in *.
  - destruct Hin.
  - destruct (total_bytes data x) as [total|] eqn:Ht; [| discriminate].
    destruct (render_data_rows data es) as [rows'|]; [| discriminate].
    inversion H; subst; clear H.
    destruct Hin as [Heq | Hin].
    + inversion Heq; subst. exists total. split; [exact Ht | left; reflexivity].
    + destruct (IH rows' eq_refl Hin) as (t & Ht' & Hrow).
      exists t. split; [exact Ht' | right; exact Hrow].
Qed.

(** Without [http_reqs], a metric of unit ["data"] makes line 369 throw. *)
Lemma render_data_rows_throws (data : snapshot) (es : list (string * metric)) :
  Obj.get "http_reqs" (sn_metrics data) = None ->
  es <> [] ->
  render_data_rows data es = TypeError.
Proof.
  intros Hreq Hes. destruct es as [|[n m] es]; [congruence |].
  simpl. unfold total_bytes. rewrite Hreq. reflexivity.
Qed.

(** How rendering goes when [http_reqs] is not a metric of the snapshot:
    it throws as soon as some metric has the unit ["data"], and otherwise
    returns a report without the request lines. *)
Lemma render_without_http_reqs (now : string) (data : snapshot) :
  Obj.get "http_reqs" (sn_metrics data) = None ->
  (forall name m,
      In (name, m) (Obj.entries (sn_metrics data)) ->
      m_unit m = "data" ->
      generateHTML now data = TypeError) /\
  ((forall name m,
       In (name, m) (Obj.entries (sn_metrics data)) ->
       m_unit m <> "data") ->
   exists r,
     generateHTML now data = Ok r /\
     requests_summary r = None /\
     data_rows r = []).
Proof.
  intros Hreq. split.
  - intros name m Hin Hunit. unfold generateHTML.
    destruct (render_requests data); [| reflexivity].
    rewrite render_data_rows_throws; [reflexivity | exact Hreq |].
    intros Hnil.
    assert (Hf : In (name, m)
                    (filter (fun e => String.eqb (m_unit (snd e)) "data")
                            (Obj.entries (sn_metrics data)))).
    { apply filter_In. split; [exact Hin |]. cbn [snd].
      rewrite Hunit. reflexivity. }
    rewrite Hnil in Hf. destruct Hf.
  - intros Hnone. unfold generateHTML, render_requests. rewrite Hreq.
    assert (Hnil : filter (fun e => String.eqb (m_unit (snd e)) "data")
                          (Obj.entries (sn_metrics data)) = []).
    { destruct (filter _ _) as [|[n m] rest] eqn:E; [reflexivity |].
      exfalso.
      assert (Hf : In (n, m)
                      (filter (fun e => String.eqb (m_unit (snd e)) "data")
                              (Obj.entries (sn_metrics data))))
        by (rewrite E; left; reflexivity).
      apply filter_In in Hf. destruct Hf as [Hin Hu]. cbn [snd] in Hu.
      apply String.eqb_eq in Hu. exact (Hnone n m Hin Hu). }
    rewrite Hnil. simpl. eexists. split; [reflexivity |].
    split; reflexivity.
Qed.

(** C4 (as amended). When a defined metric has no accumulated sample,
    the statistics loop does not throw on its account (it returns on
    every log whose sampled metrics are defined and whose values are
    numbers) and the metric keeps the empty statistics object. The
    renderer has no state for missing data: in every rendered report a
    metric of unit time without statistics has a row of seven cells
    ["NaN m"], and one of unit data a row of four cells
    ["NaN undefined"]. *)
Theorem C4_zero_samples :
  forall (lines : list line) (name : string) (m0 : metric),
    Obj.get name (metrics (pass lines)) = Some m0 ->
    values_of (samples (pass lines)) name = [] ->
    (sampled_defined (pass lines) = true ->
     numeric_log (pass lines) = true ->
     exists data, snd (processK6Output lines) = Returned data) /\
    (forall data,
        snd (processK6Output lines) = Returned data ->
        exists m,
          Obj.get name (sn_metrics data) = Some m /\
          m_stats m = NoStats /\
          m_unit m = m_unit m0 /\
          forall now r,
            generateHTML now data = Ok r ->
            (m_unit m = "time" -> In (name, repeat "NaN m" 7) (time_rows r)) /\
            (m_unit m = "data" ->
             In (name, repeat "NaN undefined" 4) (data_rows r))).
Proof.
  intros lines name m0 Hdef Hzero. split.
  - intros Hd Hn. exact (finish_returns (pass_responses_sampled lines) Hd Hn).
  - intros data Hfin. cbn [snd processK6Output] in Hfin.
    pose proof (finish_metrics _ Hfin name) as Hget.
    rewrite Hdef in Hget. simpl in Hget.
    assert (Hsame : stats_for (samples (pass lines)) name m0 = m0)
      by (unfold stats_for; rewrite Hzero; reflexivity).
    rewrite Hsame in Hget.
    pose proof (pass_without_stats lines name Hdef) as Hno.
    exists m0. split; [exact Hget |]. split; [exact Hno |].
    split; [reflexivity |].
    intros now r Hgen.
    destruct (@generateHTML_Ok now data r Hgen) as (_ & _ & Htime & Hdata & _).
    pose proof (@get_entries _ name m0 _ Hget) as Hin.
    split; intros Hunit.
    + rewrite Htime.
      pose proof (@render_time_rows_In data name m0 Hin Hunit) as Hrow.
      rewrite Hno in Hrow. exact Hrow.
    + assert (Hf : In (name, m0)
                      (filter (fun e => String.eqb (m_unit (snd e)) "data")
                              (Obj.entries (sn_metrics data)))).
      { apply filter_In. split; [exact Hin |]. cbn [snd].
        rewrite Hunit. reflexivity. }
      destruct (@render_data_rows_In data _ _ name m0 Hdata Hf) as (total & Ht & Hrow).
      rewrite Hno in Hrow. simpl in Hrow.
      assert (Htotal : total = NaN).
      { unfold total_bytes in Ht. rewrite Hno in Ht.
        destruct (Obj.get "http_reqs" (sn_metrics data)); [| discriminate].
        simpl in Ht. inversion Ht. reflexivity. }
      subst total. exact Hrow.
Qed.


(** ** The requests-per-second loop *)

Lemma rps_loop_total (ts : list num) :
  forall (currentSecond : option Z) (requestCount : nat)
         (rpsData : list rps_point),
  exists pending,
    (ts <> [] -> (1 <= pending)%nat) /\
    (list_sum (map rps (rps_loop ts currentSecond requestCount rpsData))
     + pending
     = list_sum (map rps rpsData) + requestCount + List.length ts)%nat.
Proof.
  induction ts as [|t ts IH]; intros cur cnt out; simpl.
  - exists cnt. split; [congruence | lia].
  - destruct (match cur with
              | Some c => Z.eqb (script_floor t) c
              | None => false
              end).
    + destruct (IH cur (S cnt) out) as (p & Hp & Hsum).
      exists p. split.
      * intros _. destruct ts as [|t' ts'].
        -- simpl in Hsum. lia.
        -- apply Hp. discriminate.
      * lia.
    + destruct (IH (Some (script_floor t)) 1%nat
                  (out ++ [{| rps_timestamp := cur; rps := cnt |}]))
        as (p & Hp & Hsum).
      exists p. split.
      * intros _. destruct ts as [|t' ts'].
        -- simpl in Hsum. rewrite map_app, list_sum_app in Hsum.
           simpl in Hsum. lia.
        -- apply Hp. discriminate.
      * rewrite map_app, list_sum_app in Hsum. simpl in Hsum. lia.
Qed.

(** The buckets of [rpsData] never account for all the timestamps: the
    count of the last second is not pushed. *)
Lemma rpsData_drops_last_bucket (t : num) (ts : list num) :
  (list_sum (map rps (rpsData (t :: ts))) < List.length (t :: ts))%nat.
Proof.
  unfold rpsData.
  destruct (rps_loop_total (t :: ts) (Some (script_floor t)) 0 [])
    as (p & Hp & Hsum).
  specialize (Hp ltac:(discriminate)). simpl in Hsum. simpl. lia.
Qed.

(** ** The time series and the time range, line by line *)

Lemma track_time_range_effect (timestamp : date) (st : pass_state) :
  exists st',
    track_time_range timestamp st = (st', Normal tt) /\
    testStartTime st' = update_start timestamp (testStartTime st) /\
    testEndTime st' = update_end timestamp (testEndTime st) /\
    timestamps st' = timestamps st /\ vus st' = vus st.
Proof.
  unfold track_time_range, bind, read, when, modify, ret,
    update_start, update_end. cbn.
  destruct (testStartTime st) as [s|] eqn:Es;
    [destruct (date_ltb timestamp s) |]; cbn;
    (destruct (testEndTime st) as [e|] eqn:Ee;
     [destruct (date_ltb e timestamp) |]); cbn;
    eexists; (split; [reflexivity |]); cbn; rewrite ?Es, ?Ee;
    repeat split; reflexivity.
Qed.

Lemma collect_series_effect (data d : jsval) (t : num) (st : pass_state) :
  present data = true -> present d = true ->
  exists st',
    collect_series data d t st = (st', Normal tt) /\
    testStartTime st' = testStartTime st /\
    testEndTime st' = testEndTime st /\
    timestamps st'
    = (if is_str (opt_prop data "metric") "vus"
       then timestamps st ++ [t] else timestamps st) /\
    vus st'
    = (if is_str (opt_prop data "metric") "vus"
       then vus st ++ [opt_prop d "value"] else vus st).
Proof.
  intros Hdata Hd.
  unfold collect_series.
  rewrite (prop_present data "metric" Hdata), (prop_present d "tags" Hd),
    (prop_present d "value" Hd).
  unfold when. step_binds.
  destruct (is_str (opt_prop data "metric") "vus").
  - eexists. split; [reflexivity | repeat split].
  - repeat match goal with
           | |- context [if is_str ?v ?s then _ else _] =>
               destruct (is_str v s); step_binds;
               rewrite ?tags_and_status_ret; step_binds
           end;
      unfold bind, eval, ret, modify; cbn;
      eexists; (split; [reflexivity | repeat split]).
Qed.

(** What one parsed line does to the time range and to the series of
    virtual users. *)
Lemma process_line_series (st : pass_state) (j : json) :
  let st' := process_line st (Parsed j) in
  let d := opt_prop (Some j) "data" in
  let is_vus := tracked j && is_str (opt_prop (Some j) "metric") "vus" in
  testStartTime st'
  = (if tracked j then update_start (tracked_date j) (testStartTime st)
     else testStartTime st) /\
  testEndTime st'
  = (if tracked j then update_end (tracked_date j) (testEndTime st)
     else testEndTime st) /\
  timestamps st'
  = (if is_vus then timestamps st ++ [seconds_of (tracked_date j)]
     else timestamps st) /\
  vus st'
  = (if is_vus then vus st ++ [opt_prop d "value"] else vus st).
Proof.
  cbv zeta. unfold process_line, tracked, tracked_date.
  destruct (present (Some j)) eqn:Hj.
  2:{ destruct j; try discriminate. cbn. repeat split; reflexivity. }
  destruct (is_str (opt_prop (Some j) "type") "Point") eqn:HP; cbn [andb].
  - destruct (present (opt_prop (Some j) "data")) eqn:Hd.
    + rewrite (try_block_point j st HP Hd).
      match goal with
      | |- context [collect_sample (Some j) ?s] =>
          rewrite (collect_sample_runs (Some j) s Hj Hd)
      end.
      assert (Hsame : forall (s0 : pass_state) (A : Type)
                             (f : pass_state -> A),
                 (forall g s1, f (with_samples g s1) = f s1) ->
                 (forall s1, f (console_error s1) = f s1) ->
                 f (match
                      (if is_str (opt_prop (Some j) "metric")
                            "http_req_duration"
                          && negb (has_status_200 (opt_prop (Some j) "data"))
                       then (s0, @Return unit)
                       else (with_samples
                               (push_sample (key_of (opt_prop (Some j) "metric"))
                                  (opt_prop (opt_prop (Some j) "data") "value"))
                               s0, Normal tt))
                    with
                    | (st', Throw) => console_error st'
                    | (st', _) => st'
                    end) = f s0).
      { intros s0 A f Hf _.
        destruct (is_str (opt_prop (Some j) "metric") "http_req_duration"
                  && negb (has_status_200 (opt_prop (Some j) "data")));
          [reflexivity | apply Hf]. }
      rewrite !Hsame by reflexivity.
      destruct (truthy (opt_prop (opt_prop (Some j) "data") "time"));
        [| repeat split; reflexivity].
      unfold collect_timeseries.
      rewrite (prop_present (Some j) "data" Hj). step_binds.
      rewrite (prop_present _ "time" Hd). step_binds. cbv zeta.
      unfold bind.
      destruct (track_time_range_effect
                  (new_Date (opt_prop (opt_prop (Some j) "data") "time")) st)
        as (st1 & -> & S1 & E1 & T1 & V1).
      rewrite (track_status_codes_runs (Some j) _ st1 Hj Hd).
      match goal with
      | |- context [collect_series (Some j) ?d ?t ?s] =>
          destruct (collect_series_effect (Some j) d t s Hj Hd)
            as (st3 & -> & S3 & E3 & T3 & V3)
      end.
      cbn [fst]. rewrite S3, E3, T3, V3.
      match goal with
      | |- context [testStartTime (if ?b then _ else _)] => destruct b
      end; cbn [testStartTime testEndTime timestamps vus with_statusCodes];
        rewrite S1, E1, T1, V1; repeat split; reflexivity.
    + rewrite (try_block_point_absent j st HP Hd).
      rewrite (opt_prop_absent _ "time" Hd).
      cbn. repeat split; reflexivity.
  - destruct (is_str (opt_prop (Some j) "type") "Metric") eqn:HM.
    + rewrite (try_block_metric j st HM).
      rewrite (define_metric_runs (Some j) st Hj).
      destruct (present (opt_prop (Some j) "data")); cbn;
        repeat split; reflexivity.
    + rewrite (try_block_other j st Hj HP HM).
      cbn. repeat split; reflexivity.
Qed.

(** ** The test duration *)

Lemma fold_time_range (lines : list line) (st : pass_state) :
  testStartTime (fold_left process_line lines st)
  = fold_left (fun acc d => update_start d acc) (tracked_dates lines)
      (testStartTime st) /\
  testEndTime (fold_left process_line lines st)
  = fold_left (fun acc d => update_end d acc) (tracked_dates lines)
      (testEndTime st).
Proof.
  unfold tracked_dates.
  revert st. induction lines as [|l lines IH]; intros st; simpl.
  - split; reflexivity.
  - destruct (IH (process_line st l)) as [IHs IHe].
    rewrite IHs, IHe, !fold_left_app.
    destruct l as [| | j]; simpl; [split; reflexivity | split; reflexivity |].
    change (match try_block (Some j) st with
            | (st', Throw) => console_error st'
            | (st', _) => st'
            end) with (process_line st (Parsed j)).
    destruct (process_line_series st j) as (Hs & He & _).
    rewrite Hs, He.
    destruct (tracked j); split; reflexivity.
Qed.

(** Once the start is an invalid date it stays one. *)
Lemma update_start_invalid (ds : list date) :
  fold_left (fun acc d => update_start d acc) ds (Some None) = Some None.
Proof.
  induction ds as [|d ds IH]; simpl; [reflexivity |].
  destruct d; exact IH.
Qed.

Lemma update_end_invalid (ds : list date) :
  fold_left (fun acc d => update_end d acc) ds (Some None) = Some None.
Proof.
  induction ds as [|d ds IH]; simpl; [reflexivity |].
  destruct d; exact IH.
Qed.

(** From a valid start, the start ends as the least valid time seen. *)
Lemma update_start_valid (ds : list date) :
  forall a : Z,
  exists lo : Z,
    fold_left (fun acc d => update_start d acc) ds (Some (Some a))
    = Some (Some lo) /\
    (lo = a \/ In (Some lo) ds) /\
    (lo <= a)%Z /\
    (forall t, In (Some t) ds -> (lo <= t)%Z).
Proof.
  induction ds as [|d ds IH]; intros a; simpl.
  - exists a. repeat split; [left; reflexivity | lia | intros t []].
  - destruct d as [t0|]; simpl.
    + destruct (t0 <? a)%Z eqn:E.
      * apply Z.ltb_lt in E.
        destruct (IH t0) as (lo & Hf & Hin & Hle & Hall).
        exists lo. split; [exact Hf |]. split; [| split].
        -- right. destruct Hin as [-> | Hin]; [left; reflexivity | right; exact Hin].
        -- lia.
        -- intros t [Ht | Ht]; [inversion Ht; subst; exact Hle | apply Hall, Ht].
      * apply Z.ltb_ge in E.
        destruct (IH a) as (lo & Hf & Hin & Hle & Hall).
        exists lo. split; [exact Hf |]. split; [| split].
        -- destruct Hin as [-> | Hin]; [left; reflexivity | right; right; exact Hin].
        -- exact Hle.
        -- intros t [Ht | Ht]; [inversion Ht; subst; lia | apply Hall, Ht].
    + destruct (IH a) as (lo & Hf & Hin & Hle & Hall).
      exists lo. split; [exact Hf |]. split; [| split].
      * destruct Hin as [-> | Hin]; [left; reflexivity | right; right; exact Hin].
      * exact Hle.
      * intros t [Ht | Ht]; [discriminate | apply Hall, Ht].
Qed.

Lemma update_end_valid (ds : list date) :
  forall a : Z,
  exists hi : Z,
    fold_left (fun acc d => update_end d acc) ds (Some (Some a))
    = Some (Some hi) /\
    (hi = a \/ In (Some hi) ds) /\
    (a <= hi)%Z /\
    (forall t, In (Some t) ds -> (t <= hi)%Z).
Proof.
  induction ds as [|d ds IH]; intros a; simpl.
  - exists a. repeat split; [left; reflexivity | lia | intros t []].
  - destruct d as [t0|]; simpl.
    + destruct (a <? t0)%Z eqn:E.
      * apply Z.ltb_lt in E.
        destruct (IH t0) as (hi & Hf & Hin & Hle & Hall).
        exists hi. split; [exact Hf |]. split; [| split].
        -- right. destruct Hin as [-> | Hin]; [left; reflexivity | right; exact Hin].
        -- lia.
        -- intros t [Ht | Ht]; [inversion Ht; subst; exact Hle | apply Hall, Ht].
      * apply Z.ltb_ge in E.
        destruct (IH a) as (hi & Hf & Hin & Hle & Hall).
        exists hi. split; [exact Hf |]. split; [| split].
        -- destruct Hin as [-> | Hin]; [left; reflexivity | right; right; exact Hin].
        -- exact Hle.
        -- intros t [Ht | Ht]; [inversion Ht; subst; lia | apply Hall, Ht].
    + destruct (IH a) as (hi & Hf & Hin & Hle & Hall).
      exists hi. split; [exact Hf |]. split; [| split].
      * destruct Hin as [-> | Hin]; [left; reflexivity | right; right; exact Hin].
      * exact Hle.
      * intros t [Ht | Ht]; [discriminate | apply Hall, Ht].
Qed.

Lemma finish_testDuration (st : pass_state) (data : snapshot) :
  finish st = Returned data ->
  sn_testDuration data = date_diff (testEndTime st) (testStartTime st).
Proof.
  unfold finish. intros H.
  destruct (compute_statistics _ _ _ _); try discriminate.
  destruct (numeric_points _); [| discriminate].
  inversion H; subst. reflexivity.
Qed.

(** X1.  The duration that the report shows, lines 82-83 and 185: 0 when no
    point carries a time; [NaN] when the first tracked point has an
    invalid date, whatever follows; otherwise the span between the least
    and the greatest valid time of the tracked points (invalid dates
    after the first point are passed over), which is not negative. *)
Theorem test_duration_span :
  forall (lines : list line) (data : snapshot),
    snd (processK6Output lines) = Returned data ->
    match tracked_dates lines with
    | [] => sn_testDuration data = Fin 0
    | None :: _ => sn_testDuration data = NaN
    | Some _ :: _ =>
        exists lo hi : Z,
          In (Some lo) (tracked_dates lines) /\
          In (Some hi) (tracked_dates lines) /\
          (forall t, In (Some t) (tracked_dates lines) ->
                     (lo <= t <= hi)%Z) /\
          (lo <= hi)%Z /\
          sn_testDuration data = Fin (inject_Z (hi - lo))
    end.
Proof.
  intros lines data Hfin. cbn [snd processK6Output] in Hfin.
  rewrite (finish_testDuration _ Hfin).
  destruct (fold_time_range lines initial_state) as [Hs He].
  fold (pass lines) in Hs, He. rewrite Hs, He.
  change (testStartTime initial_state) with (@None date).
  change (testEndTime initial_state) with (@None date).
  destruct (tracked_dates lines) as [|[t0|] ds]; cbn [fold_left].
  - reflexivity.
  - change (update_start (Some t0) None) with (Some (Some t0)).
    change (update_end (Some t0) None) with (Some (Some t0)).
    destruct (update_start_valid ds t0) as (lo & -> & Hlin & Hlle & Hlall).
    destruct (update_end_valid ds t0) as (hi & -> & Hhin & Hhle & Hhall).
    exists lo, hi. simpl.
    split; [destruct Hlin as [-> | H]; [left; reflexivity | right; exact H] |].
    split; [destruct Hhin as [-> | H]; [left; reflexivity | right; exact H] |].
    split; [| split; [lia | reflexivity]].
    intros t [Ht | Ht].
    + inversion Ht; subst. lia.
    + split; [apply Hlall, Ht | apply Hhall, Ht].
  - change (update_start None None) with (@Some date None).
    change (update_end None None) with (@Some date None).
    rewrite update_start_invalid, update_end_invalid. reflexivity.
Qed.

(** ** The series of virtual users *)

Lemma fold_vus (lines : list line) (st : pass_state) :
  timestamps (fold_left process_line lines st)
  = timestamps st ++ map fst (flat_map vus_point lines) /\
  vus (fold_left process_line lines st)
  = vus st ++ map snd (flat_map vus_point lines).
Proof.
  revert st. induction lines as [|l lines IH]; intros st; simpl.
  - rewrite !app_nil_r. split; reflexivity.
  - destruct (IH (process_line st l)) as [IHt IHv].
    rewrite IHt, IHv, !map_app, !app_assoc.
    destruct l as [| | j]; simpl;
      [rewrite !app_nil_r; split; reflexivity
      | rewrite !app_nil_r; split; reflexivity |].
    change (match try_block (Some j) st with
            | (st', Throw) => console_error st'
            | (st', _) => st'
            end) with (process_line st (Parsed j)).
    destruct (process_line_series st j) as (_ & _ & Ht & Hv).
    rewrite Ht, Hv.
    destruct (tracked j && is_str (opt_prop (Some j) "metric") "vus");
      simpl; rewrite ?app_nil_r; split; reflexivity.
Qed.

Lemma finish_vus (st : pass_state) (data : snapshot) :
  finish st = Returned data ->
  ts_timestamps (sn_timeseriesData data) = timestamps st /\
  ts_vus (sn_timeseriesData data) = vus st.
Proof.
  unfold finish. intros H.
  destruct (compute_statistics _ _ _ _); try discriminate.
  destruct (numeric_points _); [| discriminate].
  inversion H; subst. split; reflexivity.
Qed.

(** X2.  The two arrays of the virtual-user trace, lines 92-94 and 404-405,
    hold one entry per tracked [vus] point, in log order: the time in
    seconds in the one and the value in the other, so that they have the
    same length. *)
Theorem vus_trace_aligned :
  forall (now : string) (lines : list line) (r : report),
    main now lines = Returned r ->
    combine (vuTrace_x r) (vuTrace_y r) = flat_map vus_point lines /\
    List.length (vuTrace_x r) = List.length (vuTrace_y r) /\
    List.length (vuTrace_x r) = count_lines is_vus_point lines.
Proof.
  intros now lines r Hmain.
  unfold main, processK6Output in Hmain. cbn [snd] in Hmain.
  destruct (finish (pass lines)) as [data| |] eqn:Hfin; try discriminate.
  destruct (generateHTML now data) as [r'|] eqn:Hgen; [| discriminate].
  inversion Hmain; subst r'; clear Hmain.
  assert (Hx : vuTrace_x r = ts_timestamps (sn_timeseriesData data) /\
               vuTrace_y r = ts_vus (sn_timeseriesData data)).
  { unfold generateHTML in Hgen.
    destruct (render_requests data); [| discriminate].
    destruct (render_data_rows data _); [| discriminate].
    inversion Hgen; subst. split; reflexivity. }
  destruct Hx as [-> ->].
  destruct (finish_vus _ Hfin) as [-> ->].
  destruct (fold_vus lines initial_state) as [Ht Hv].
  fold (pass lines) in Ht, Hv. simpl in Ht, Hv. rewrite Ht, Hv.
  assert (Hcomb : forall l : list (num * jsval),
             combine (map fst l) (map snd l) = l).
  { induction l as [|[a b] l IH]; simpl; [reflexivity | rewrite IH; reflexivity]. }
  rewrite Hcomb, !length_map.
  split; [reflexivity |]. split; [reflexivity |].
  unfold count_lines. clear.
  induction lines as [|l lines IH]; simpl; [reflexivity |].
  rewrite length_app, IH.
  destruct l as [| | j]; simpl; try reflexivity.
  destruct (tracked j && is_str (opt_prop (Some j) "metric") "vus");
    reflexivity.
Qed.

(** ** Logged errors *)



(** ** Defined metrics *)

Lemma set_keys (V : Type) (k : string) (v : V) (o : obj V) :
  map fst (Obj.set k v o)
  = if existsb (String.eqb k) (map fst o) then map fst o
    else map fst o ++ [k].
Proof.
  induction o as [|[k' v'] o IH]; simpl; [reflexivity |].
  destruct (String.eqb k k') eqn:E; simpl; [reflexivity |].
  rewrite IH. destruct (existsb (String.eqb k) (map fst o)); reflexivity.
Qed.

(** Assignment keeps the property names distinct. *)
Lemma set_NoDup (V : Type) (k : string) (v : V) (o : obj V) :
  NoDup (map fst o) -> NoDup (map fst (Obj.set k v o)).
Proof.
  intros H. rewrite set_keys.
  destruct (existsb (String.eqb k) (map fst o)) eqn:E; [exact H |].
  apply NoDup_app; [exact H | repeat constructor; intros [] |].
  intros x Hx [Hk | []]. subst x.
  assert (Ht : existsb (String.eqb k) (map fst o) = true)
    by (apply existsb_exists; exists k; split;
        [exact Hx | apply String.eqb_refl]).
  congruence.
Qed.

Lemma get_In_NoDup (V : Type) (k : string) (v : V) (o : obj V) :
  NoDup (map fst o) -> In (k, v) o -> Obj.get k o = Some v.
Proof.
  unfold Obj.get. induction o as [|[k' v'] o IH]; simpl; intros Hnd Hin.
  - destruct Hin.
  - inversion Hnd as [|? ? Hnot Hnd']; subst.
    destruct Hin as [Heq | Hin].
    + inversion Heq; subst. rewrite String.eqb_refl. reflexivity.
    + destruct (String.eqb k k') eqn:E.
      * apply String.eqb_eq in E. subst k'. exfalso. apply Hnot.
        apply in_map_iff. exists (k, v). split; [reflexivity | exact Hin].
      * apply IH; assumption.
Qed.

Lemma metrics_ok_set (ms : obj metric) (name : string) (m : metric) :
  m_unit m = getMetricUnit name ->
  metrics_ok ms -> metrics_ok (Obj.set name m ms).
Proof.
  intros Hu [Hnd Hunit]. split; [apply set_NoDup, Hnd |].
  intros k x. rewrite get_set.
  destruct (String.eqb name k) eqn:E.
  - apply String.eqb_eq in E. subst k. intros H. inversion H; subst. exact Hu.
  - apply Hunit.
Qed.

Lemma process_line_metrics_ok (st : pass_state) (l : line) :
  metrics_ok (metrics st) -> metrics_ok (metrics (process_line st l)).
Proof.
  intros H. destruct l as [| | j]; [exact H | exact H |].
  destruct (process_line_parsed st j) as (_ & Hm & _).
  rewrite Hm. unfold definition_of.
  destruct (is_str (opt_prop (Some j) "type") "Metric"
            && present (opt_prop (Some j) "data")); [| exact H].
  apply metrics_ok_set; [reflexivity | exact H].
Qed.

Lemma pass_metrics_ok (lines : list line) : metrics_ok (metrics (pass lines)).
Proof.
  unfold pass.
  assert (H : forall st, metrics_ok (metrics st) ->
                         metrics_ok (metrics (fold_left process_line lines st))).
  { induction lines as [|l lines IH]; intros st Hst; simpl.
    - exact Hst.
    - apply IH, process_line_metrics_ok, Hst. }
  apply H. split; [constructor | intros name m Hget; discriminate].
Qed.

Lemma compute_statistics_metrics_ok names smp :
  forall ms numeric ms',
    compute_statistics names smp ms numeric = Returned ms' ->
    metrics_ok ms -> metrics_ok ms'.
Proof.
  induction names as [|n names IH]; intros ms numeric ms' H Hok; simpl in H.
  - destruct numeric; [| discriminate]. inversion H; subst. exact Hok.
  - destruct (Nat.ltb 0 _); [| exact (IH _ _ _ H Hok)].
    destruct (Obj.get n ms) as [m|] eqn:Hm; [| discriminate].
    destruct (numbers_of _); [| exact (IH _ _ _ H Hok)].
    apply (IH _ _ _ H). apply metrics_ok_set; [| exact Hok].
    simpl. exact (proj2 Hok n m Hm).
Qed.

Lemma finish_metrics_ok (lines : list line) (data : snapshot) :
  finish (pass lines) = Returned data -> metrics_ok (sn_metrics data).
Proof.
  unfold finish. intros H.
  destruct (compute_statistics _ _ _ _) as [ms| |] eqn:Hc; try discriminate.
  destruct (numeric_points _); [| discriminate].
  inversion H; subst. cbn [sn_metrics].
  exact (@compute_statistics_metrics_ok _ _ _ _ _ Hc (pass_metrics_ok lines)).
Qed.



(** ** When the statistics loop throws *)




(** ** The rows of the two tables *)

Lemma unit_time_names (name : string) :
  getMetricUnit name = "time" ->
  In name ["http_req_duration"; "http_req_waiting"; "http_req_connecting";
           "http_req_tls_handshaking"; "http_req_sending";
           "http_req_receiving"; "iteration_duration"].
Proof.
  unfold getMetricUnit. intros H.
  destruct (Obj.get name metricUnits) as [u|] eqn:E; [| discriminate].
  subst u. apply get_Some_In in E. simpl in E.
  repeat (destruct E as [E | E];
          [inversion E; subst; simpl; tauto || discriminate |]).
  destruct E.
Qed.

Lemma unit_data_names (name : string) :
  getMetricUnit name = "data" ->
  name = "data_sent" \/ name = "data_received".
Proof.
  unfold getMetricUnit. intros H.
  destruct (Obj.get name metricUnits) as [u|] eqn:E; [| discriminate].
  subst u. apply get_Some_In in E. simpl in E.
  repeat (destruct E as [E | E];
          [inversion E; subst; tauto || discriminate |]).
  destruct E.
Qed.

Lemma entries_get (ms : obj metric) (name : string) (m : metric) :
  metrics_ok ms -> In (name, m) (Obj.entries ms) ->
  Obj.get name ms = Some m.
Proof.
  intros [Hnd _] Hin. apply get_In_NoDup; [exact Hnd |].
  apply entries_In. exact Hin.
Qed.

Lemma render_data_rows_names (data : snapshot) (es : list (string * metric))
  (rows : list (string * list string)) :
  render_data_rows data es = Ok rows ->
  map fst rows = map fst es /\
  forall row, In row rows -> List.length (snd row) = 4%nat.
Proof.
  revert rows. induction es as [|[n m] es IH]; intros rows H; simpl in H.
  - inversion H. split; [reflexivity | intros row []].
  - destruct (total_bytes data m); [| discriminate].
    destruct (render_data_rows data es) as [rows'|]; [| discriminate].
    inversion H; subst. destruct (IH rows' eq_refl) as [Hn Hl].
    split; [simpl; rewrite Hn; reflexivity |].
    intros row [<- | Hin]; [reflexivity | apply Hl, Hin].
Qed.

(** X5.  The tables of a written report, lines 333-342 and 361-371: the
    response-time table has one row of seven cells for each defined
    metric whose name is one of the seven names of unit time, the
    data-transfer table one row of four cells for each of [data_sent] and
    [data_received] that is defined; a metric of any other name, such as
    a custom one, is in neither table. *)
Theorem table_rows :
  forall (now : string) (lines : list line) (r : report),
    main now lines = Returned r ->
    (forall name cells,
        In (name, cells) (time_rows r) ->
        In name ["http_req_duration"; "http_req_waiting";
                 "http_req_connecting"; "http_req_tls_handshaking";
                 "http_req_sending"; "http_req_receiving";
                 "iteration_duration"] /\
        List.length cells = 7%nat) /\
    (forall name cells,
        In (name, cells) (data_rows r) ->
        (name = "data_sent" \/ name = "data_received") /\
        List.length cells = 4%nat) /\
    (forall name,
        Obj.get name (metrics (pass lines)) <> None ->
        (getMetricUnit name = "time" -> In name (map fst (time_rows r))) /\
        (getMetricUnit name = "data" -> In name (map fst (data_rows r)))).
Proof.
  intros now lines r Hmain.
  unfold main, processK6Output in Hmain. cbn [snd] in Hmain.
  destruct (finish (pass lines)) as [data| |] eqn:Hfin; try discriminate.
  destruct (generateHTML now data) as [r'|] eqn:Hgen; [| discriminate].
  inversion Hmain; subst r'; clear Hmain.
  destruct (@generateHTML_Ok _ _ _ Hgen) as (_ & _ & Htime & Hdata & _).
  pose proof (@finish_metrics_ok lines _ Hfin) as Hok.
  destruct (@render_data_rows_names _ _ _ Hdata) as [Hnames Hlen].
  split; [| split].
  - intros name cells Hin. rewrite Htime in Hin. unfold render_time_rows in Hin.
    apply in_map_iff in Hin. destruct Hin as ([n m] & Heq & Hf).
    apply filter_In in Hf. destruct Hf as [Hent Hu]. cbn [fst snd] in *.
    inversion Heq; subst. apply String.eqb_eq in Hu.
    split; [| reflexivity].
    apply unit_time_names.
    rewrite <- (proj2 Hok name m (@entries_get _ _ _ Hok Hent)). exact Hu.
  - intros name cells Hin. split; [| exact (Hlen _ Hin)].
    assert (Hn : In name (map fst (data_rows r)))
      by (apply in_map_iff; exists (name, cells); auto).
    rewrite Hnames in Hn. apply in_map_iff in Hn.
    destruct Hn as ([n m] & Heq & Hf). cbn [fst] in Heq. subst n.
    apply filter_In in Hf. destruct Hf as [Hent Hu]. cbn [snd] in Hu.
    apply String.eqb_eq in Hu.
    apply unit_data_names.
    rewrite <- (proj2 Hok name m (@entries_get _ _ _ Hok Hent)). exact Hu.
  - intros name Hdef.
    pose proof (@finish_metrics _ _ Hfin name) as Hget.
    destruct (Obj.get name (metrics (pass lines))) as [m0|] eqn:Hm0;
      [| congruence].
    simpl in Hget.
    pose proof (proj2 Hok name _ Hget) as Hunit.
    pose proof (@get_entries _ name _ _ Hget) as Hent.
    split; intros Hu.
    + rewrite Htime. unfold render_time_rows. rewrite map_map. cbn [fst].
      apply in_map_iff. eexists. split; [| apply filter_In; split; [exact Hent |]].
      * reflexivity.
      * cbn [snd]. rewrite Hunit, Hu. reflexivity.
    + rewrite Hnames. apply in_map_iff.
      eexists. split; [| apply filter_In; split; [exact Hent |]].
      * reflexivity.
      * cbn [snd]. rewrite Hunit, Hu. reflexivity.
Qed.

(** ** When a report is written *)






(** ** The extremes of the samples *)

Lemma sorted_extremes (l : list Q) (q : Q) :
  Sorted Qle l -> In q l ->
  (at_index l 0 <= q /\ q <= at_index l (List.length l - 1))%Q.
Proof.
  intros Hs Hin.
  destruct (In_nth l q 0%Q Hin) as (i & Hi & Hq).
  fold (at_index l i) in Hq. rewrite <- Hq. split.
  - apply Sorted_at_index; [exact Hs | lia | exact Hi].
  - apply Sorted_at_index; [exact Hs | lia | lia].
Qed.

(** X7.  The minimum and the maximum that a returned snapshot shows for a
    metric are samples that the log contributes under its name, no
    sample lies below the minimum or above the maximum, and the count is
    the number of contributions (lines 155-159 and 166 over the sorted
    array). *)
Theorem statistics_extremes :
  forall (lines : list line) (data : snapshot) (name : string)
         (m : metric) (s : summary),
    snd (processK6Output lines) = Returned data ->
    Obj.get name (sn_metrics data) = Some m ->
    m_stats m = Stats s ->
    exists qs,
      numbers_of (flat_map (contribution name) lines) = Some qs /\
      s_count s = List.length (flat_map (contribution name) lines) /\
      In (s_min s) qs /\ In (s_max s) qs /\
      forall q, In q qs -> (s_min s <= q /\ q <= s_max s)%Q.
Proof.
  intros lines data name m s Hfin Hget Hstats.
  cbn [snd processK6Output] in Hfin.
  destruct (@returned_stats lines data name m s Hfin Hget Hstats)
    as (qs & Hq & Hlen & ->).
  rewrite pass_values_of in Hq.
  exists qs. split; [exact Hq |].
  unfold statistics. cbn [s_count s_min s_max].
  rewrite sort_length.
  split; [apply numbers_of_length, Hq |].
  assert (Hin : forall i, (i < List.length qs)%nat ->
                          In (at_index (sort qs) i) qs).
  { intros i Hi. apply (Permutation_in _ (Permutation_sym (sort_perm qs))).
    unfold at_index. apply nth_In. rewrite sort_length. exact Hi. }
  split; [apply Hin; exact Hlen |].
  split; [apply Hin; lia |].
  intros q Hqin.
  rewrite <- (sort_length qs).
  apply sorted_extremes; [apply sort_Sorted |].
  apply (Permutation_in _ (sort_perm qs)). exact Hqin.
Qed.

(** ** The count of each status code *)

Lemma combine_map (A B C : Type) (f : A -> B) (g : A -> C) (l : list A) :
  combine (map f l) (map g l) = map (fun x => (f x, g x)) l.
Proof.
  induction l as [|x l IH]; simpl; [reflexivity | rewrite IH; reflexivity].
Qed.



Lemma fold_status_codes (lines : list line) (st : pass_state) (code : string) :
  NoDup (map fst (statusCodes st)) ->
  NoDup (map fst (statusCodes (fold_left process_line lines st))) /\
  Obj.get code (statusCodes (fold_left process_line lines st))
  = match count_lines (has_status code) lines with
    | O => Obj.get code (statusCodes st)
    | S n => Some (match Obj.get code (statusCodes st) with
                   | Some c => c
                   | None => 0
                   end + S n)%nat
    end.
Proof.
  unfold count_lines.
  revert st. induction lines as [|l lines IH]; intros st Hnd.
  - simpl. split; [exact Hnd | reflexivity].
  - cbn [fold_left filter].
    assert (Hstep :
              NoDup (map fst (statusCodes (process_line st l))) /\
              Obj.get code (statusCodes (process_line st l))
              = if has_status code l
                then Some (match Obj.get code (statusCodes st) with
                           | Some c => c
                           | None => 0
                           end + 1)%nat
                else Obj.get code (statusCodes st)).
    { destruct l as [| | j]; try (split; [exact Hnd | reflexivity]).
      destruct (process_line_parsed st j) as (_ & _ & Hc & _).
      rewrite Hc. cbn [has_status].
      destruct (counted_status j) as [status|]; [| split; [exact Hnd | reflexivity]].
      unfold count_status. split; [apply set_NoDup, Hnd |].
      rewrite get_set.
      destruct (String.eqb (key_of status) code) eqn:E; [| reflexivity].
      apply String.eqb_eq in E. rewrite E. reflexivity. }
    destruct Hstep as [Hnd' Hget].
    destruct (IH (process_line st l) Hnd') as [Hnd'' Hrec].
    split; [exact Hnd'' |].
    rewrite Hrec, Hget.
    destruct (has_status code l); cbn [List.length];
      destruct (List.length (filter (has_status code) lines));
      try reflexivity; f_equal; lia.
Qed.


(** ** The response time histogram *)








(** ** The response time chart *)

Lemma collect_timeseries_response_at (data : jsval) (st : pass_state) :
  present data = true -> present (opt_prop data "data") = true ->
  successfulResponses (fst (collect_timeseries data st))
  = if is_str (opt_prop data "metric") "http_req_duration"
       && has_status_200 (opt_prop data "data")
    then successfulResponses st
         ++ [{| p_timestamp :=
                  seconds_of (new_Date (opt_prop (opt_prop data "data") "time"));
                p_value := opt_prop (opt_prop data "data") "value" |}]
    else successfulResponses st.
Proof.
  intros Hdata Hd.
  unfold collect_timeseries.
  rewrite (prop_present data "data" Hdata). step_binds.
  rewrite (prop_present _ "time" Hd). step_binds. cbv zeta.
  unfold bind.
  pose proof (track_time_range_responses
                (new_Date (opt_prop (opt_prop data "data") "time")) st) as H1.
  destruct (track_time_range_runs
              (new_Date (opt_prop (opt_prop data "data") "time")) st)
    as (st1 & E1 & _).
  rewrite E1 in *. cbn [fst] in H1.
  rewrite (track_status_codes_runs data _ st1 Hdata Hd).
  match goal with
  | |- context [collect_series data ?d ?t ?s] =>
      pose proof (collect_series_responses data d t s Hdata Hd) as H3;
      destruct (collect_series_runs data d t s Hdata Hd) as (st3 & E3 & _)
  end.
  rewrite E3 in *. cbn [fst] in *. rewrite H3.
  match goal with
  | |- context [successfulResponses (if ?b then _ else _)] => destruct b
  end; cbn [successfulResponses with_statusCodes]; rewrite H1; reflexivity.
Qed.

Lemma process_line_responses (st : pass_state) (l : line) :
  successfulResponses (process_line st l)
  = successfulResponses st ++ response_point l.
Proof.
  destruct l as [| | j]; try (simpl; rewrite app_nil_r; reflexivity).
  unfold response_point, process_line, tracked, tracked_date. cbv zeta.
  destruct (present (Some j)) eqn:Hj.
  2:{ destruct j; try discriminate. cbn. rewrite app_nil_r. reflexivity. }
  destruct (is_str (opt_prop (Some j) "type") "Point") eqn:HP; cbn [andb].
  - destruct (present (opt_prop (Some j) "data")) eqn:Hd.
    + rewrite (try_block_point j st HP Hd).
      match goal with
      | |- context [collect_sample (Some j) ?s] =>
          rewrite (collect_sample_runs (Some j) s Hj Hd)
      end.
      assert (Hsame : forall s0 : pass_state,
                 successfulResponses
                   (match
                      (if is_str (opt_prop (Some j) "metric")
                            "http_req_duration"
                          && negb (has_status_200 (opt_prop (Some j) "data"))
                       then (s0, @Return unit)
                       else (with_samples
                               (push_sample (key_of (opt_prop (Some j) "metric"))
                                  (opt_prop (opt_prop (Some j) "data") "value"))
                               s0, Normal tt))
                    with
                    | (st', Throw) => console_error st'
                    | (st', _) => st'
                    end) = successfulResponses s0).
      { intros s0.
        destruct (is_str (opt_prop (Some j) "metric") "http_req_duration"
                  && negb (has_status_200 (opt_prop (Some j) "data")));
          reflexivity. }
      rewrite Hsame.
      destruct (truthy (opt_prop (opt_prop (Some j) "data") "time"));
        cbn [andb]; [| rewrite app_nil_r; reflexivity].
      rewrite (collect_timeseries_response_at (Some j) st Hj Hd).
      destruct (is_str (opt_prop (Some j) "metric") "http_req_duration"
                && has_status_200 (opt_prop (Some j) "data"));
        [reflexivity | rewrite app_nil_r; reflexivity].
    + rewrite (try_block_point_absent j st HP Hd).
      rewrite (opt_prop_absent _ "time" Hd).
      cbn. rewrite app_nil_r. reflexivity.
  - rewrite app_nil_r.
    destruct (is_str (opt_prop (Some j) "type") "Metric") eqn:HM.
    + rewrite (try_block_metric j st HM).
      rewrite (define_metric_runs (Some j) st Hj).
      destruct (present (opt_prop (Some j) "data")); cbn; reflexivity.
    + rewrite (try_block_other j st Hj HP HM). reflexivity.
Qed.

Lemma pass_responses (lines : list line) :
  successfulResponses (pass lines) = flat_map response_point lines.
Proof.
  unfold pass.
  assert (H : forall st,
             successfulResponses (fold_left process_line lines st)
             = successfulResponses st ++ flat_map response_point lines).
  { induction lines as [|l lines IH]; intros st; simpl.
    - rewrite app_nil_r. reflexivity.
    - rewrite IH, process_line_responses, app_assoc. reflexivity. }
  rewrite H. reflexivity.
Qed.

Lemma numeric_points_points (ps : list point) (qs : list numeric_point) :
  numeric_points ps = Some qs ->
  map (fun q => {| p_timestamp := np_timestamp q;
                   p_value := Some (JNum (np_value q)) |}) qs = ps.
Proof.
  revert qs. induction ps as [|p ps IH]; intros qs H; simpl in H.
  - inversion H. reflexivity.
  - destruct (as_number (p_value p)) as [q|] eqn:E; [| discriminate].
    destruct (numeric_points ps) as [qs'|]; [| discriminate].
    inversion H; subst. simpl. rewrite (IH qs' eq_refl). f_equal.
    destruct p as [t [[| |x| | |]|]]; simpl in E; try discriminate.
    inversion E; subst. reflexivity.
Qed.

(** X10.  The response-time chart of a written report, lines 96-103, 148,
    413-414 and 461: its points are, in log order, the [http_req_duration] points that
    carry a time and the status tag ["200"], each with its time in
    seconds and its value; the array for the percentiles is these values
    sorted. *)
Theorem response_trace :
  forall (now : string) (lines : list line) (r : report),
    main now lines = Returned r ->
    map (fun tv => {| p_timestamp := fst tv;
                      p_value := Some (JNum (snd tv)) |})
        (combine (responseTimeTrace_x r) (responseTimeTrace_y r))
    = flat_map response_point lines /\
    List.length (responseTimeTrace_x r) = List.length (responseTimeTrace_y r) /\
    sortedResponseTimes r = sort (responseTimeTrace_y r).
Proof.
  intros now lines r Hmain.
  unfold main, processK6Output in Hmain. cbn [snd] in Hmain.
  destruct (finish (pass lines)) as [data| |] eqn:Hfin; try discriminate.
  destruct (generateHTML now data) as [r'|] eqn:Hgen; [| discriminate].
  inversion Hmain; subst r'; clear Hmain.
  unfold finish in Hfin.
  destruct (compute_statistics _ _ _ _) as [ms| |]; try discriminate.
  destruct (numeric_points (successfulResponses (pass lines))) as [ps|] eqn:Hps;
    [| discriminate].
  inversion Hfin; subst data; clear Hfin.
  unfold generateHTML in Hgen.
  destruct (render_requests _); [| discriminate].
  destruct (render_data_rows _ _); [| discriminate].
  inversion Hgen; subst r; clear Hgen.
  cbn [responseTimeTrace_x responseTimeTrace_y sortedResponseTimes
       sn_timeseriesData ts_responseTime].
  split; [| split; [rewrite !length_map; reflexivity | reflexivity]].
  rewrite combine_map, map_map. cbn [fst snd].
  rewrite (numeric_points_points _ Hps). apply pass_responses.
Qed.

(** ** The runs of the requests-per-second loop *)

Lemma rps_loop_runs (ts : list num) :
  forall (c : Z) (cnt : nat) (out : list rps_point),
  exists (rest : list rps_point) (c' : Z) (n' : nat),
    let runs := rest ++ [{| rps_timestamp := Some c'; rps := n' |}] in
    rps_loop ts (Some c) cnt out = out ++ rest /\
    expand runs
    = repeat (Some c) cnt ++ map (fun x => Some (script_floor x)) ts /\
    ((0 < cnt)%nat -> forall p, In p runs -> (0 < rps p)%nat) /\
    hd None (map rps_timestamp runs) = Some c /\
    distinct_neighbours (map rps_timestamp runs).
Proof.
  induction ts as [|t ts IH]; intros c cnt out; cbn [rps_loop].
  - exists [], c, cnt. cbv zeta. cbn [app map hd distinct_neighbours].
    split; [rewrite app_nil_r; reflexivity |].
    split; [unfold expand; simpl; rewrite !app_nil_r; reflexivity |].
    split; [| split; [reflexivity | exact I]].
    intros Hc p [<- | []]. exact Hc.
  - destruct (Z.eqb (script_floor t) c) eqn:E.
    + apply Z.eqb_eq in E.
      destruct (IH c (S cnt) out) as (rest & c' & n' & Hl & He & Hp & Hh & Hd).
      exists rest, c', n'. cbv zeta in *.
      split; [exact Hl |].
      split.
      * rewrite He. cbn [map]. rewrite E.
        change (Some c :: map (fun x => Some (script_floor x)) ts)
          with ([Some c] ++ map (fun x => Some (script_floor x)) ts).
        rewrite app_assoc. f_equal.
        change (repeat (Some c) (S cnt)) with ([Some c] ++ repeat (Some c) cnt).
        symmetry. clear.
        induction cnt as [|k IHk]; simpl; [reflexivity |].
        simpl in IHk. rewrite IHk. reflexivity.
      * split; [intros _; apply Hp; lia |]. split; [exact Hh | exact Hd].
    + apply Z.eqb_neq in E.
      destruct (IH (script_floor t) 1%nat
                  (out ++ [{| rps_timestamp := Some c; rps := cnt |}]))
        as (rest & c' & n' & Hl & He & Hp & Hh & Hd).
      exists ({| rps_timestamp := Some c; rps := cnt |} :: rest), c', n'.
      cbv zeta in *.
      split; [rewrite Hl, <- app_assoc; reflexivity |].
      split.
      * unfold expand in *. cbn [app flat_map rps_timestamp rps map].
        rewrite He. reflexivity.
      * split.
        -- intros Hc p [<- | Hin]; [exact Hc | apply Hp; [lia | exact Hin]].
        -- split; [reflexivity |].
           cbn [app map rps_timestamp].
           destruct (map rps_timestamp
                       (rest ++ [{| rps_timestamp := Some c'; rps := n' |}]))
             as [|a l] eqn:El.
           ++ exact I.
           ++ cbn [distinct_neighbours]. split; [| exact Hd].
              cbn [hd] in Hh. subst a. intros H. inversion H. congruence.
Qed.

(** X11.  The loop of lines 521-536 cuts the embedded timestamps into the runs
    of consecutive timestamps that fall in the same second, and pushes
    every run but the last: [rpsData] followed by one more run spells
    out the seconds of all the timestamps, every run counts at least one
    timestamp, and neighbouring runs are of different seconds. *)
Theorem rps_runs :
  forall (t : num) (ts : list num),
  exists (c : Z) (n : nat),
    let runs := rpsData (t :: ts) ++ [{| rps_timestamp := Some c; rps := n |}] in
    expand runs = map (fun x => Some (script_floor x)) (t :: ts) /\
    (forall p, In p runs -> (0 < rps p)%nat) /\
    distinct_neighbours (map rps_timestamp runs).
Proof.
  intros t ts. unfold rpsData.
  destruct (rps_loop_runs ts (script_floor t) 1 [])
    as (rest & c & n & Hl & He & Hp & _ & Hd).
  cbv zeta in *.
  exists c, n.
  assert (Hfirst : rps_loop (t :: ts) (Some (script_floor t)) 0 [] = rest).
  { cbn [rps_loop]. rewrite Z.eqb_refl. exact Hl. }
  rewrite Hfirst.
  split; [exact He |]. split; [apply Hp; lia | exact Hd].
Qed.

(** ** The unit that [formatBytes] prints *)




(** ** The requests of the summary *)

Lemma status_is_request (code : string) (l : line) :
  has_status code l = true -> is_request_sample l = true.
Proof.
  intros H. apply counted_is_request.
  destruct l as [| | j]; simpl in *; try discriminate.
  destruct (counted_status j); [reflexivity | discriminate].
Qed.

Lemma count_lines_difference (p q : line -> bool) (lines : list line) :
  (forall l, q l = true -> p l = true) ->
  (count_lines p lines
   = count_lines q lines
     + count_lines (fun l => p l && negb (q l)) lines)%nat.
Proof.
  intros Hqp. unfold count_lines.
  induction lines as [|l lines IH]; simpl; [reflexivity |].
  pose proof (Hqp l) as H.
  destruct (q l); [rewrite H by reflexivity |]; destruct (p l);
    simpl; lia.
Qed.

(** X13.  The request lines of the summary, lines 306-308: "Successful
    Requests (200)" is the number of [http_reqs] points that carry a time
    and the status tag ["200"], and "Failed Requests" is the number of
    all other accumulated [http_reqs] samples, those without a time or
    without a status tag included; it is never negative, and the total
    is at least 1, so that the rate of line 309 divides by a positive
    number. *)
Theorem request_summary_counts :
  forall (now : string) (lines : list line) (r : report)
         (rs : request_summary),
    main now lines = Returned r ->
    requests_summary r = Some rs ->
    successful_requests rs = count_lines (has_status "200") lines /\
    failed_requests rs
    = Z.of_nat (count_lines (fun l => is_request_sample l
                                      && negb (has_status "200" l)) lines) /\
    (0 <= failed_requests rs)%Z /\
    (1 <= total_requests rs)%nat.
Proof.
  intros now lines r rs Hmain Hrs.
  unfold main, processK6Output in Hmain. cbn [snd] in Hmain.
  destruct (finish (pass lines)) as [data| |] eqn:Hfin; try discriminate.
  destruct (generateHTML now data) as [r'|] eqn:Hgen; [| discriminate].
  inversion Hmain; subst r'; clear Hmain.
  destruct (@generateHTML_Ok _ _ _ Hgen) as (Hreq & _).
  rewrite Hrs in Hreq. unfold render_requests in Hreq.
  destruct (Obj.get "http_reqs" (sn_metrics data)) as [m|] eqn:Hm;
    [| discriminate].
  destruct (m_stats m) as [|s] eqn:Hst; [discriminate |].
  simpl in Hreq. injection Hreq as Hrs'. subst rs.
  destruct (@returned_stats lines data "http_reqs" m s Hfin Hm Hst)
    as (qs & Hq & Hlen & ->).
  destruct (fold_counts lines initial_state) as [_ Hn].
  fold (pass lines) in Hn. simpl in Hn.
  assert (Hnd0 : NoDup (map fst (statusCodes initial_state)))
    by (simpl; constructor).
  destruct (fold_status_codes lines initial_state "200" Hnd0) as [_ Hok].
  fold (pass lines) in Hok. simpl in Hok.
  rewrite (@finish_statusCodes _ _ Hfin).
  cbn [successful_requests failed_requests total_requests statistics s_count].
  rewrite (numbers_of_length _ Hq), Hn in Hlen.
  rewrite sort_length, (numbers_of_length _ Hq), Hn.
  assert (Hsucc : match Obj.get "200" (statusCodes (pass lines)) with
                  | Some n => n
                  | None => 0%nat
                  end = count_lines (has_status "200") lines).
  { rewrite Hok. destruct (count_lines (has_status "200") lines);
      reflexivity. }
  rewrite Hsucc.
  pose proof (@count_lines_difference is_request_sample (has_status "200")
                lines (status_is_request "200")) as Hdiff.
  split; [reflexivity |]. split; [lia |]. split; lia.
Qed.

End Platform.

Arguments Thrown {A}.
Arguments NonNumeric {A}.

(** ** The program on the concrete platform *)

Definition run_pass : list line -> pass_state :=
  pass ToString_integral Date_of_number.

Definition run_processK6Output : list line -> nat * outcome snapshot :=
  processK6Output ToString_integral Date_of_number.

Definition run_main : string -> list line -> outcome report :=
  main ToString_integral Date_of_number.

(** C1. On a log whose sampled metrics are all defined and whose values
    are all numbers, [processK6Output] returns, and for every metric with
    N > 0 accumulated samples the reported statistics are read from the
    ascending permutation of those samples: p90, p95 and p99 at the
    indices floor(0.9 N), floor(0.95 N) and floor(0.99 N), all below N,
    the median at the middle index for odd N and as the mean of the two
    middle values for even N.  Conversely, whatever statistics a returned
    snapshot shows are these statistics of the N > 0 samples of the
    metric.  For the ten samples 10, 20, ..., 100 the index of p90 is 9
    and the reported p90 is the value there, 100; for five samples and
    for one sample the table is as computed by hand. *)
Theorem C1_percentiles_nearest_rank :
  (forall (ToString : json -> string) (Date_getTime : json -> date)
          (lines : list line) (name : string) (qs : list Q),
      let st := pass ToString Date_getTime lines in
      sampled_defined st = true ->
      numeric_log st = true ->
      numbers_of (values_of (samples st) name) = Some qs ->
      (0 < List.length qs)%nat ->
      exists data m s,
        snd (processK6Output ToString Date_getTime lines) = Returned data /\
        Obj.get name (sn_metrics data) = Some m /\
        m_stats m = Stats s /\
        let sorted := sort qs in
        let N := List.length qs in
        Sorted Qle sorted /\ Permutation qs sorted /\
        s_count s = N /\
        s_p90 s = at_index sorted (N * 9 / 10) /\
        s_p95 s = at_index sorted (N * 95 / 100) /\
        s_p99 s = at_index sorted (N * 99 / 100) /\
        (N * 9 / 10 < N /\ N * 95 / 100 < N /\ N * 99 / 100 < N)%nat /\
        (N mod 2 = 1%nat -> s_med s = at_index sorted (N / 2)) /\
        (N mod 2 = 0%nat ->
         s_med s
         = ((at_index sorted (N / 2 - 1) + at_index sorted (N / 2)) / 2)%Q)) /\
  (forall (ToString : json -> string) (Date_getTime : json -> date)
          (lines : list line) (data : snapshot) (name : string)
          (m : metric) (s : summary),
      snd (processK6Output ToString Date_getTime lines) = Returned data ->
      Obj.get name (sn_metrics data) = Some m ->
      m_stats m = Stats s ->
      exists qs,
        numbers_of
          (values_of (samples (pass ToString Date_getTime lines)) name)
        = Some qs /\
        (0 < List.length qs)%nat /\
        s = statistics (sort qs)) /\
  (let out := snd (run_processK6Output
                     (duration_log [10; 20; 30; 40; 50; 60; 70; 80; 90; 100]))
   in
   (10 * 9 / 10 = 9)%nat /\
   reported s_p90 "http_req_duration" out = Some 100 /\
   reported s_p90 "http_req_duration" out
   = Some (at_index (sort [10; 20; 30; 40; 50; 60; 70; 80; 90; 100]) 9) /\
   reported s_med "http_req_duration" out = Some ((50 + 60) / 2)%Q) /\
  (let out := snd (run_processK6Output (duration_log [50; 10; 40; 20; 30])) in
   reported s_med "http_req_duration" out = Some 30 /\
   reported s_p90 "http_req_duration" out = Some 50 /\
   reported s_p95 "http_req_duration" out = Some 50 /\
   reported s_p99 "http_req_duration" out = Some 50) /\
  (let out := snd (run_processK6Output (duration_log [7])) in
   reported s_med "http_req_duration" out = Some 7 /\
   reported s_p90 "http_req_duration" out = Some 7 /\
   reported s_p99 "http_req_duration" out = Some 7).
Proof.
  split; [| split].
  - intros ToString Date_getTime lines name qs st. subst st.
    apply percentiles_of_samples.
  - intros ToString Date_getTime lines data name m s.
    apply returned_stats.
  - cbv zeta.
    repeat match goal with |- _ /\ _ => split end;
      vm_compute; reflexivity.
Qed.

(** ** Requests per second *)

(** Four request-count events at 1.1 s, 1.4 s, 1.9 s and 2.2 s. *)
Definition requests_log : list line :=
  metric_line "http_reqs" "counter" "default"
  :: map (fun t => point_line "http_reqs" t 1 [("status", "200")])
         [1100; 1400; 1900; 2200].

(** Four virtual-user samples at the same times. *)
Definition vus_log : list line :=
  metric_line "vus" "gauge" "default"
  :: map (fun t => point_line "vus" t 5 []) [1100; 1400; 1900; 2200].

(** The buckets that the script of a written report computes. *)
Definition rps_of (r : outcome report) : option (list rps_point) :=
  match r with
  | Returned html => Some (rpsData (rps_timestamps html))
  | _ => None
  end.

(** C2. The loop of lines 520-536 on the timestamps 1.1, 1.4, 1.9, 2.2
    pushes the bucket (1, 3) only: the count of the last second is never
    pushed, whatever the timestamps.  The loop runs over the timestamps
    of the [vus] samples: a log of four request events at these times
    gives no bucket at all, a log of four [vus] samples gives (1, 3). *)
Theorem C2_rps_buckets :
  rpsData [Fin (11 # 10); Fin (14 # 10); Fin (19 # 10); Fin (22 # 10)]
  = [{| rps_timestamp := Some 1%Z; rps := 3 |}] /\
  (forall (t : num) (ts : list num),
      (list_sum (map rps (rpsData (t :: ts))) < List.length (t :: ts))%nat) /\
  rps_of (run_main "2026-01-01T00:00:00.000Z" requests_log) = Some [] /\
  rps_of (run_main "2026-01-01T00:00:00.000Z" vus_log)
  = Some [{| rps_timestamp := Some 1%Z; rps := 3 |}].
Proof.
  split; [vm_compute; reflexivity |].
  split; [exact rpsData_drops_last_bucket |].
  split; vm_compute; reflexivity.
Qed.

(** ** Rendering without [http_reqs] *)

(** A run without HTTP requests: the data counters are defined and
    sampled, [http_reqs] is not. *)
Definition no_requests_log : list line :=
  [ metric_line "data_sent" "counter" "data";
    metric_line "data_received" "counter" "data";
    point_line "data_sent" 1000 0 [];
    point_line "data_received" 1000 0 [] ].

(** C8. With [http_reqs] absent from the snapshot, rendering throws as
    soon as some metric has the unit ["data"] (line 369 reads
    [metrics.http_reqs.stats] without the guard of line 305), and returns
    a report without the request lines otherwise.  The log of a run
    without HTTP requests ends without a report. *)
Theorem C8_render_without_http_reqs :
  (forall (now : string) (data : snapshot),
      Obj.get "http_reqs" (sn_metrics data) = None ->
      (forall name m,
          In (name, m) (Obj.entries (sn_metrics data)) ->
          m_unit m = "data" ->
          generateHTML now data = TypeError) /\
      ((forall name m,
           In (name, m) (Obj.entries (sn_metrics data)) ->
           m_unit m <> "data") ->
       exists r,
         generateHTML now data = Ok r /\
         requests_summary r = None /\
         data_rows r = [])) /\
  (exists data,
      snd (run_processK6Output no_requests_log) = Returned data /\
      Obj.get "http_reqs" (sn_metrics data) = None /\
      generateHTML "2026-01-01T00:00:00.000Z" data = TypeError) /\
  run_main "2026-01-01T00:00:00.000Z" no_requests_log = Thrown.
Proof.
  split; [exact render_without_http_reqs |].
  split.
  - eexists. split; [vm_compute; reflexivity |].
    split; vm_compute; reflexivity.
  - vm_compute. reflexivity.
Qed.

(** ** Counterexamples to the claims as first stated *)

(** C4 as stated fails: a defined time metric without samples is rendered
    with ["NaN m"] in every cell of its row and in the summary, and a
    defined [http_reqs] without samples makes the rendering throw. *)
Lemma C4_counterexample_NaN_row :
  (exists r,
      run_main "2026-01-01T00:00:00.000Z"
        [metric_line "http_req_duration" "trend" "time"] = Returned r /\
      time_rows r = [("http_req_duration", repeat "NaN m" 7)] /\
      average_response_time r = Some "NaN m") /\
  run_main "2026-01-01T00:00:00.000Z"
    [metric_line "http_reqs" "counter" "default"] = Thrown.
Proof.
  split.
  - eexists. split; [vm_compute; reflexivity |].
    split; vm_compute; reflexivity.
  - vm_compute. reflexivity.
Qed.



(** A short session: four metric definitions, two [vus] samples, two
    requests (one answered 200, one 500) with their durations and one
    more successful duration, and a line that is not JSON. *)
Definition session_log : list line :=
  [ metric_line "http_reqs" "counter" "default";
    metric_line "http_req_duration" "trend" "time";
    metric_line "vus" "gauge" "default";
    metric_line "data_received" "counter" "data";
    point_line "vus" 1000 5 [];
    point_line "http_reqs" 1100 1 [("status", "200")];
    point_line "http_req_duration" 1100 120 [("status", "200")];
    point_line "data_received" 1100 2048 [("status", "200")];
    point_line "http_reqs" 1900 1 [("status", "500")];
    point_line "http_req_duration" 1900 250 [("status", "500")];
    point_line "vus" 2500 5 [];
    point_line "http_req_duration" 2600 180 [("status", "200")];
    Garbage ].

(** ** The theorems at concrete inputs *)

Lemma C1_witness :
  let lines := duration_log [30; 10; 20] in
  sampled_defined (run_pass lines) = true /\
  numeric_log (run_pass lines) = true /\
  numbers_of (values_of (samples (run_pass lines)) "http_req_duration")
  = Some [30; 10; 20] /\
  (0 < List.length [30; 10; 20])%nat /\
  exists data m s,
    snd (run_processK6Output lines) = Returned data /\
    Obj.get "http_req_duration" (sn_metrics data) = Some m /\
    m_stats m = Stats s /\
    s_p90 s = at_index (sort [30; 10; 20]) 2.
Proof.
  cbv zeta. unfold run_pass, run_processK6Output.
  assert (H1 : sampled_defined
                 (pass ToString_integral Date_of_number
                    (duration_log [30; 10; 20])) = true)
    by (vm_compute; reflexivity).
  assert (H2 : numeric_log
                 (pass ToString_integral Date_of_number
                    (duration_log [30; 10; 20])) = true)
    by (vm_compute; reflexivity).
  assert (H3 : numbers_of
                 (values_of
                    (samples (pass ToString_integral Date_of_number
                                (duration_log [30; 10; 20])))
                    "http_req_duration") = Some [30; 10; 20])
    by (vm_compute; reflexivity).
  assert (H4 : (0 < List.length [30; 10; 20])%nat) by (simpl; lia).
  split; [exact H1 |]. split; [exact H2 |]. split; [exact H3 |].
  split; [exact H4 |].
  destruct (proj1 C1_percentiles_nearest_rank ToString_integral
              Date_of_number (duration_log [30; 10; 20])
              "http_req_duration" [30; 10; 20] H1 H2 H3 H4)
    as (data & m & s & Hd & Hm & Hs & _ & _ & _ & Hp90 & _).
  exists data, m, s.
  split; [exact Hd |]. split; [exact Hm |]. split; [exact Hs | exact Hp90].
Defined.


Lemma C4_witness :
  let lines := [metric_line "http_req_duration" "trend" "time"] in
  let m0 := {| m_type := Some (JStr "trend");
               m_contains := Some (JStr "time");
               m_values := [];
               m_stats := NoStats;
               m_unit := "time" |} in
  Obj.get "http_req_duration" (metrics (run_pass lines)) = Some m0 /\
  values_of (samples (run_pass lines)) "http_req_duration" = [] /\
  exists data, snd (run_processK6Output lines) = Returned data.
Proof.
  cbv zeta. unfold run_pass, run_processK6Output.
  assert (H1 : Obj.get "http_req_duration"
                 (metrics (pass ToString_integral Date_of_number
                             [metric_line "http_req_duration" "trend" "time"]))
               = Some {| m_type := Some (JStr "trend");
                         m_contains := Some (JStr "time");
                         m_values := [];
                         m_stats := NoStats;
                         m_unit := "time" |})
    by (vm_compute; reflexivity).
  assert (H2 : values_of
                 (samples (pass ToString_integral Date_of_number
                             [metric_line "http_req_duration" "trend" "time"]))
                 "http_req_duration" = [])
    by (vm_compute; reflexivity).
  split; [exact H1 |]. split; [exact H2 |].
  destruct (@C4_zero_samples ToString_integral Date_of_number
              [metric_line "http_req_duration" "trend" "time"]
              "http_req_duration" _ H1 H2) as [Hreturns _].
  apply Hreturns; vm_compute; reflexivity.
Defined.




Lemma C8_witness :
  exists data,
    snd (run_processK6Output no_requests_log) = Returned data /\
    Obj.get "http_reqs" (sn_metrics data) = None /\
    generateHTML "2026-01-01T00:00:00.000Z" data = TypeError.
Proof.
  unfold run_processK6Output.
  evar (data : snapshot). exists data.
  assert (H1 : snd (processK6Output ToString_integral Date_of_number
                      no_requests_log) = Returned data)
    by (subst data; vm_compute; reflexivity).
  assert (H2 : Obj.get "http_reqs" (sn_metrics data) = None)
    by (subst data; vm_compute; reflexivity).
  split; [exact H1 |]. split; [exact H2 |].
  refine (proj1 (proj1 C8_render_without_http_reqs
                   "2026-01-01T00:00:00.000Z" _ H2)
            "data_sent" _ _ _).
  - vm_compute. left. reflexivity.
  - reflexivity.
Defined.


(** ** Further properties at concrete inputs *)


Lemma test_duration_span_witness :
  exists data,
    snd (run_processK6Output session_log) = Returned data /\
    exists lo hi : Z,
      In (Some lo) (tracked_dates Date_of_number session_log) /\
      In (Some hi) (tracked_dates Date_of_number session_log) /\
      (forall t, In (Some t) (tracked_dates Date_of_number session_log) ->
                 (lo <= t <= hi)%Z) /\
      (lo <= hi)%Z /\ sn_testDuration data = Fin (inject_Z (hi - lo)).
Proof.
  unfold run_processK6Output.
  evar (data : snapshot). exists data.
  assert (H1 : snd (processK6Output ToString_integral Date_of_number
                      session_log) = Returned data)
    by (subst data; vm_compute; reflexivity).
  split; [exact H1 |].
  exact (@test_duration_span ToString_integral Date_of_number
           session_log data H1).
Defined.

Lemma vus_trace_aligned_witness :
  exists r,
    run_main "2026-01-01T00:00:00.000Z" session_log = Returned r /\
    combine (vuTrace_x r) (vuTrace_y r)
    = flat_map (vus_point Date_of_number) session_log /\
    List.length (vuTrace_x r) = List.length (vuTrace_y r) /\
    List.length (vuTrace_x r) = count_lines is_vus_point session_log.
Proof.
  unfold run_main.
  evar (r : report). exists r.
  assert (H1 : main ToString_integral Date_of_number
                 "2026-01-01T00:00:00.000Z" session_log = Returned r)
    by (subst r; vm_compute; reflexivity).
  split; [exact H1 |].
  exact (@vus_trace_aligned ToString_integral Date_of_number
           "2026-01-01T00:00:00.000Z" session_log r H1).
Defined.

Lemma table_rows_witness :
  exists r,
    run_main "2026-01-01T00:00:00.000Z" session_log = Returned r /\
    In "http_req_duration" (map fst (time_rows r)) /\
    In "data_received" (map fst (data_rows r)).
Proof.
  unfold run_main.
  evar (r : report). exists r.
  assert (H1 : main ToString_integral Date_of_number
                 "2026-01-01T00:00:00.000Z" session_log = Returned r)
    by (subst r; vm_compute; reflexivity).
  split; [exact H1 |].
  destruct (@table_rows ToString_integral Date_of_number
              "2026-01-01T00:00:00.000Z" session_log r H1)
    as (_ & _ & Hrows).
  split.
  - apply (Hrows "http_req_duration"); [vm_compute; discriminate | reflexivity].
  - apply (Hrows "data_received"); [vm_compute; discriminate | reflexivity].
Defined.


Lemma statistics_extremes_witness :
  exists data m s,
    snd (run_processK6Output session_log) = Returned data /\
    Obj.get "http_req_duration" (sn_metrics data) = Some m /\
    m_stats m = Stats s /\
    exists qs,
      numbers_of (flat_map (contribution ToString_integral "http_req_duration")
                           session_log) = Some qs /\
      s_count s
      = List.length (flat_map (contribution ToString_integral
                                 "http_req_duration") session_log) /\
      In (s_min s) qs /\ In (s_max s) qs /\
      forall q, In q qs -> (s_min s <= q /\ q <= s_max s)%Q.
Proof.
  unfold run_processK6Output.
  evar (data : snapshot). evar (m : metric). evar (s : summary).
  exists data, m, s.
  assert (H1 : snd (processK6Output ToString_integral Date_of_number
                      session_log) = Returned data)
    by (subst data; vm_compute; reflexivity).
  assert (H2 : Obj.get "http_req_duration" (sn_metrics data) = Some m)
    by (subst data m; vm_compute; reflexivity).
  assert (H3 : m_stats m = Stats s) by (subst m s; vm_compute; reflexivity).
  split; [exact H1 |]. split; [exact H2 |]. split; [exact H3 |].
  exact (@statistics_extremes ToString_integral Date_of_number
           session_log data "http_req_duration" m s H1 H2 H3).
Defined.



Lemma response_trace_witness :
  exists r,
    run_main "2026-01-01T00:00:00.000Z" session_log = Returned r /\
    map (fun tv => {| p_timestamp := fst tv;
                      p_value := Some (JNum (snd tv)) |})
        (combine (responseTimeTrace_x r) (responseTimeTrace_y r))
    = flat_map (response_point Date_of_number) session_log /\
    List.length (responseTimeTrace_x r) = List.length (responseTimeTrace_y r) /\
    sortedResponseTimes r = sort (responseTimeTrace_y r).
Proof.
  unfold run_main.
  evar (r : report). exists r.
  assert (H1 : main ToString_integral Date_of_number
                 "2026-01-01T00:00:00.000Z" session_log = Returned r)
    by (subst r; vm_compute; reflexivity).
  split; [exact H1 |].
  exact (@response_trace ToString_integral Date_of_number
           "2026-01-01T00:00:00.000Z" session_log r H1).
Defined.


Lemma request_summary_counts_witness :
  exists r rs,
    run_main "2026-01-01T00:00:00.000Z" session_log = Returned r /\
    requests_summary r = Some rs /\
    successful_requests rs
    = count_lines (has_status ToString_integral "200") session_log /\
    failed_requests rs
    = Z.of_nat (count_lines
                  (fun l => is_request_sample ToString_integral l
                            && negb (has_status ToString_integral "200" l))
                  session_log) /\
    (0 <= failed_requests rs)%Z /\
    (1 <= total_requests rs)%nat.
Proof.
  unfold run_main.
  evar (r : report). evar (rs : request_summary).
  exists r, rs.
  assert (H1 : main ToString_integral Date_of_number
                 "2026-01-01T00:00:00.000Z" session_log = Returned r)
    by (subst r; vm_compute; reflexivity).
  assert (H2 : requests_summary r = Some rs)
    by (subst r rs; vm_compute; reflexivity).
  split; [exact H1 |]. split; [exact H2 |].
  exact (@request_summary_counts ToString_integral Date_of_number
           "2026-01-01T00:00:00.000Z" session_log r rs H1 H2).
Defined.
